(** * RXbot_WebApp: the alert encoder, its endpoint and its two callers

    A shallow embedding of

    - [formatAlertData] and [POST] of the process-alert route,
    - the validation prefix of [handleSubmit] of the dashboard page,
    - [loadDevices] and [getTotalExpandedAlerts] of the database page,
    - the handlers that edit the alerts of the dashboard page ([addAlert],
      [removeAlert], [updateAlert], [toggleDay], [toggleEveryday]) and
      what [handleSubmit] does with the answer,
    - [deleteDevice], [clearAllDevices] and [getDayLabel] of the database
      page,

    with the theorems that relate them to the written specification.

    Conventions.  A JavaScript string is a [string] (a sequence of code
    units); an array is a [list]; [Array.prototype.push] appends at the
    end; a [number] that the code only ever reads as an integer (an array
    length, the device identifier that the form obtains from
    [Number.parseInt]) is a [Z].  Requests are taken well typed: every
    field of [FormData] is present and has its declared shape, except that
    [type] is any string, as the JSON body admits. *)

From Stdlib Require Import List String Ascii ZArith Lia Bool Arith.
From Stdlib Require Import Decimal DecimalString DecimalNat DecimalZ.
Import ListNotations.

Local Open Scope list_scope.
Local Open Scope string_scope.

(** ** JavaScript built-ins used by the source *)

Module JS.

(** [arr.push(x)]: the array with [x] appended. *)
Definition push {A : Type} (arr : list A) (x : A) : list A := (arr ++ [x])%list.

(** [arr.forEach(f)], where the callback updates a state [S]. *)
Definition forEach {A S : Type} (arr : list A) (f : A -> S -> S) (s : S) : S :=
  fold_left (fun acc x => f x acc) arr s.

Fixpoint for_from {S : Type} (n : nat) (i : Z) (body : Z -> S -> S) (s : S) : S :=
  match n with
  | O => s
  | Datatypes.S n' => for_from n' (i + 1) body (body i s)
  end.

(** [for (let i = lo; i <= hi; i++) body]: the body neither changes [i]
    nor leaves the loop, so it runs [hi + 1 - lo] times. *)
Definition for_le {S : Type} (lo hi : Z) (body : Z -> S -> S) (s : S) : S :=
  for_from (Z.to_nat (hi + 1 - lo)) lo body s.

(** [Number.prototype.toString] on an integer: its decimal numeral, with
    a minus sign when negative (exact below 10^21 in magnitude, where
    JavaScript switches to exponent notation). *)
Definition toString (n : Z) : string := NilZero.string_of_int (Z.to_int n).

(** [arr.length], as a number. *)
Definition length {A : Type} (arr : list A) : Z := Z.of_nat (List.length arr).

(** The string made of the first [n] code units of [filler] repeated
    [fuel] times. *)
Fixpoint fill (fuel n : nat) (filler : string) : string :=
  match fuel with
  | O => ""
  | Datatypes.S fuel' =>
      if (n <=? String.length filler)%nat
      then substring 0 n filler
      else filler ++ fill fuel' (n - String.length filler) filler
  end.

(** [s.padStart(targetLength, padString)]. *)
Definition padStart (targetLength : nat) (padString : string) (s : string) : string :=
  if ((targetLength <=? String.length s)%nat || (String.length padString =? 0)%nat)%bool
  then s
  else fill targetLength (targetLength - String.length s) padString ++ s.

(** [arr.join(sep)] on an array of strings. *)
Definition join (sep : string) (arr : list string) : string := String.concat sep arr.

(** Truthiness of a string ([!s] is its negation). *)
Definition truthy_string (s : string) : bool := negb (String.length s =? 0)%nat.

(** Truthiness of an integer number. *)
Definition truthy_number (n : Z) : bool := negb (n =? 0)%Z.

End JS.

(** ** The route: types *)

Record Alert : Type := mkAlert {
  message : string;
  type : string;
  isEveryday : bool;
  selectedDays : list string;
  hour : string;
  minute : string
}.

Record FormData : Type := mkFormData {
  name : string;
  phone : string;
  email : string;
  medicalInfo : string;
  deviceId : Z;
  alerts : list Alert
}.

(** The elements of the local array [expandedAlerts]. *)
Module Expanded.
Record t : Type := mk {
  type : string;
  day : string;
  hour : string;
  minute : string;
  message : string
}.
End Expanded.

(** ** The route: [formatAlertData] *)

(** The body of the outer [forEach] callback: what one alert pushes onto
    [expandedAlerts]. *)
Definition expandAlert (alert : Alert) (expandedAlerts : list Expanded.t) : list Expanded.t :=
  let type := if String.eqb (type alert) "Reminder" then "r" else "m" in
  let hour := JS.padStart 2 "0" (hour alert) in
  let minute := JS.padStart 2 "0" (minute alert) in
  let message := message alert in
  if isEveryday alert then
    JS.for_le 0 6
      (fun day acc => JS.push acc (Expanded.mk type (JS.toString day) hour minute message))
      expandedAlerts
  else
    JS.forEach (selectedDays alert)
      (fun day acc => JS.push acc (Expanded.mk type day hour minute message))
      expandedAlerts.

(** [expandedAlerts] after the outer loop. *)
Definition expandAlerts (data : FormData) : list Expanded.t :=
  JS.forEach (alerts data) expandAlert [].

(** The template literal of the second loop. *)
Definition alertLine (alert : Expanded.t) : string :=
  Expanded.type alert ++ "," ++ Expanded.day alert ++ "," ++ Expanded.hour alert
    ++ "," ++ Expanded.minute alert ++ "," ++ Expanded.message alert.

(** [lines] just before the final [join]. *)
Definition formatLines (data : FormData) : list string :=
  let lines := [] in
  let expandedAlerts := expandAlerts data in
  let lines := JS.push lines (JS.toString (JS.length expandedAlerts)) in
  let lines := JS.forEach expandedAlerts (fun alert acc => JS.push acc (alertLine alert)) lines in
  let lines := JS.push lines (name data ++ "," ++ phone data ++ "," ++ email data) in
  let lines := JS.push lines (medicalInfo data) in
  let lines := JS.push lines (JS.toString (deviceId data)) in
  lines.

Definition newline : string := String (ascii_of_nat 10) "".  (* "\n" *)

Definition formatAlertData (data : FormData) : string :=
  JS.join newline (formatLines data).

(** ** The route: [POST] *)

(** What the handler answers: [NextResponse.json(body, { status })]. *)
Inductive NextResponse : Type :=
| json_success (formattedOutput : string)
    (* { success: true, formattedOutput }, status 200 *)
| json_error (error : string) (status : Z).
    (* { error }, { status } *)

(** The handler on a well-typed body.  [!data.alerts] is false for every
    array, and nothing in the [try] block throws on such a body, so the
    [catch] branch (status 500) is not reached. *)
Definition POST (data : FormData) : NextResponse :=
  if negb (JS.truthy_string (name data)) || negb (JS.truthy_string (phone data))
     || negb (JS.truthy_string (email data)) || negb (JS.truthy_string (medicalInfo data))
     || negb (JS.truthy_number (deviceId data))
  then json_error "Missing required fields" 400
  else if (deviceId data <? 1)%Z || (deviceId data >? 100)%Z
  then json_error "Device ID must be between 1 and 100" 400
  else if (JS.length (alerts data) =? 0)%Z
  then json_error "At least one alert is required" 400
  else
    let formattedOutput := formatAlertData data in
    json_success formattedOutput.

(** ** The dashboard page: [handleSubmit] up to the request *)

Module Dashboard.

(** The route's alert, before this page's own [Alert] takes the name. *)
Definition RouteAlert : Type := Alert.
Definition mkRouteAlert := mkAlert.

Record Alert : Type := mkAlert {
  id : string;
  message : string;
  type : string;
  isEveryday : bool;
  selectedDays : list string;
  hour : string;
  minute : string
}.

(** The component state that [handleSubmit] reads. *)
Record Form : Type := mkForm {
  name : string;
  phone : string;
  email : string;
  medicalInfo : string;
  deviceId : string;
  alerts : list Alert
}.

(** How the route reads one alert of the JSON body ([id] is not a field
    of its [Alert]). *)
Definition toRouteAlert (a : Alert) : RouteAlert :=
  mkRouteAlert (message a) (type a) (isEveryday a) (selectedDays a) (hour a) (minute a).

(** What a submission comes to: a destructive toast and an early
    [return], or the request to [/api/process-alert] with the route's
    answer.  What the page does with the answer is not modelled. *)
Inductive Submission : Type :=
| toast_destructive (title description : string)
| fetch_process_alert (formData : FormData) (response : NextResponse).

Section HandleSubmit.

(** [Number.parseInt], with [None] for [NaN], and
    [String.prototype.trim]: supplied by the browser. *)
Variable parseInt : string -> option Z.
Variable trim : string -> string.

(** The predicate of [alerts.filter] at lines 120-122. *)
Definition invalidAlert (alert : Alert) : bool :=
  negb (JS.truthy_string (trim (message alert)))
  || (negb (isEveryday alert) && (JS.length (selectedDays alert) =? 0)%Z).

Definition handleSubmit (form : Form) : Submission :=
  if negb (JS.truthy_string (name form)) || negb (JS.truthy_string (phone form))
     || negb (JS.truthy_string (email form)) || negb (JS.truthy_string (medicalInfo form))
     || negb (JS.truthy_string (deviceId form))
  then toast_destructive "Missing Information" "Please fill in all required fields."
  else
    match parseInt (deviceId form) with
    | None => toast_destructive "Invalid Device ID" "Device ID must be between 1 and 100."
    | Some deviceIdNum =>
        if (deviceIdNum <? 1)%Z || (deviceIdNum >? 100)%Z
        then toast_destructive "Invalid Device ID" "Device ID must be between 1 and 100."
        else if (JS.length (alerts form) =? 0)%Z
        then toast_destructive "No Alerts" "Please add at least one alert."
        else
          let invalidAlerts := filter invalidAlert (alerts form) in
          if (JS.length invalidAlerts >? 0)%Z
          then toast_destructive "Invalid Alerts"
                 "All alerts must have a message and at least one day selected."
          else
            let formData :=
              mkFormData (name form) (phone form) (email form) (medicalInfo form)
                deviceIdNum (map toRouteAlert (alerts form)) in
            fetch_process_alert formData (POST formData)
    end.

End HandleSubmit.

End Dashboard.

(** ** The database page: [loadDevices] and [getTotalExpandedAlerts] *)

Module Database.

Record StoredDevice : Type := mkStoredDevice {
  id : string;
  timestamp : string;
  name : string;
  phone : string;
  email : string;
  medicalInfo : string;
  deviceId : Z;
  alerts : list Alert;
  formattedOutput : string
}.

(** What [loadDevices] reads and writes: the value stored under the key
    ["medicalAlertDevices"] ([None] for [null]), the [devices] state of
    the component, and the lines written with [console.error]. *)
Record Page : Type := mkPage {
  localStorage : option string;
  devices : list StoredDevice;
  console : list string
}.

(** The page when it mounts: [useState<StoredDevice[]>([])]. *)
Definition mount (stored : option string) : Page := mkPage stored [] [].

(** A computation that returns a value or throws. *)
Inductive Outcome (A : Type) : Type :=
| Return (a : A)
| Throw (error : string).
Arguments Return {A} a.
Arguments Throw {A} error.

Definition bind {A B : Type} (m : Outcome A) (k : A -> Outcome B) : Outcome B :=
  match m with
  | Return a => k a
  | Throw error => Throw error
  end.

(** [try { body } catch (error) { handler }]. *)
Definition try_catch {A : Type} (body : Outcome A) (handler : string -> Outcome A) : Outcome A :=
  match body with
  | Return a => Return a
  | Throw error => handler error
  end.

Definition setDevices (parsed : list StoredDevice) (page : Page) : Page :=
  mkPage (localStorage page) parsed (console page).

(** [console.error(label, error)]: one console line. *)
Definition console_error (label error : string) (page : Page) : Page :=
  mkPage (localStorage page) (devices page)
    (JS.push (console page) (label ++ " " ++ error)).

Section LoadDevices.

(** [JSON.parse], read at the type the page gives its result. *)
Variable JSON_parse : string -> Outcome (list StoredDevice).

Definition loadDevices (page : Page) : Outcome Page :=
  let stored := localStorage page in
  match stored with
  | Some text =>
      if JS.truthy_string text then
        try_catch
          (bind (JSON_parse text) (fun parsed => Return (setDevices parsed page)))
          (fun error => Return (console_error "[v0] Error loading devices:" error page))
      else Return page
  | None => Return page
  end.

End LoadDevices.

Definition getTotalExpandedAlerts (device : StoredDevice) : Z :=
  let total := 0%Z in
  JS.forEach (alerts device)
    (fun alert total =>
       if isEveryday alert then (total + 7)%Z
       else (total + JS.length (selectedDays alert))%Z)
    total.

End Database.

(** ** The vocabulary of the specification

    The definitions of this part follow the words of the specification,
    not the source: they are what the embedded functions above are
    compared with. *)

(** The single-character code of a category (4.1, step 1). *)
Definition categoryCode (category : string) : string :=
  if String.eqb category "Reminder" then "r" else "m".

(** The weekday codes in ascending order (4.1, step 3). *)
Definition weekdayCodes : list string := ["0"; "1"; "2"; "3"; "4"; "5"; "6"].

(** The expanded records of one alert definition (4.1, steps 1 to 4). *)
Definition expansion (alert : Alert) : list Expanded.t :=
  map (fun day =>
         Expanded.mk (categoryCode (type alert)) day
           (JS.padStart 2 "0" (hour alert)) (JS.padStart 2 "0" (minute alert))
           (message alert))
      (if isEveryday alert then weekdayCodes else selectedDays alert).

(** The flat sequence of expanded records of a schedule (4.1, step 5). *)
Definition expandedRecords (schedule : list Alert) : list Expanded.t :=
  flat_map expansion schedule.

(** The expanded alert count of the data model: the sum over the alerts
    of 7 if everyday, else the number of selected days. *)
Definition expandedCount (schedule : list Alert) : nat :=
  list_sum (map (fun alert => if isEveryday alert then 7 else List.length (selectedDays alert))
              schedule).

(** Fields joined by a comma. *)
Definition commaJoined (fields : list string) : string := String.concat "," fields.

(** The record line [code,day,hour,minute,message]. *)
Definition recordLine (r : Expanded.t) : string :=
  commaJoined [Expanded.type r; Expanded.day r; Expanded.hour r; Expanded.minute r;
               Expanded.message r].

(** The sequence of lines of the wire format (4.1, serialization). *)
Definition wireLines (data : FormData) : list string :=
  (JS.toString (Z.of_nat (List.length (expandedRecords (alerts data))))
     :: map recordLine (expandedRecords (alerts data))
     ++ [commaJoined [name data; phone data; email data];
         medicalInfo data;
         JS.toString (deviceId data)])%list.

(** *** Valid configurations (data model, section 3) *)

Definition isDigit (c : ascii) : bool :=
  ((48 <=? nat_of_ascii c) && (nat_of_ascii c <=? 57))%nat.

Definition digitValue (c : ascii) : nat := nat_of_ascii c - 48.

(** The integer that an hour or minute field denotes: one or two decimal
    digits, as the form's number inputs and its default ["09"] give. *)
Definition clockValue (field : string) : option nat :=
  match field with
  | String a "" => if isDigit a then Some (digitValue a) else None
  | String a (String b "") =>
      if isDigit a && isDigit b then Some (10 * digitValue a + digitValue b) else None
  | _ => None
  end.

Definition clockField (bound : nat) (field : string) : bool :=
  match clockValue field with
  | Some n => (n <? bound)%nat
  | None => false
  end.

(** A two-digit, zero-padded field with a value below [bound]. *)
Definition twoDigitField (bound : nat) (field : string) : bool :=
  (String.length field =? 2)%nat && clockField bound field.

Definition isWeekdayCode (day : string) : bool := existsb (String.eqb day) weekdayCodes.

Fixpoint distinct (days : list string) : bool :=
  match days with
  | [] => true
  | day :: rest => negb (existsb (String.eqb day) rest) && distinct rest
  end.

Definition validAlert (alert : Alert) : bool :=
  JS.truthy_string (message alert)
  && (String.eqb (type alert) "Reminder" || String.eqb (type alert) "Medicine")
  && forallb isWeekdayCode (selectedDays alert) && distinct (selectedDays alert)
  && (isEveryday alert || negb (List.length (selectedDays alert) =? 0)%nat)
  && clockField 24 (hour alert) && clockField 60 (minute alert).

Definition validConfiguration (data : FormData) : bool :=
  JS.truthy_string (name data) && JS.truthy_string (phone data)
  && JS.truthy_string (email data) && JS.truthy_string (medicalInfo data)
  && (1 <=? deviceId data)%Z && (deviceId data <=? 100)%Z
  && negb (List.length (alerts data) =? 0)%nat
  && forallb validAlert (alerts data).

(** *** Reading the wire format back (section 8, round trip) *)

Definition comma : ascii := ascii_of_nat 44.
Definition linefeed : ascii := ascii_of_nat 10.

(** [occurs c s]: the code unit [c] occurs in [s]. *)
Fixpoint occurs (c : ascii) (s : string) : bool :=
  match s with
  | "" => false
  | String a rest => Ascii.eqb a c || occurs c rest
  end.

(** A text free of commas and newlines. *)
Definition plainText (s : string) : bool := negb (occurs comma s) && negb (occurs linefeed s).

(** An expanded record of the wire grammar (section 6): [code] is [r] or
    [m], [day] a weekday code, [HH] and [MM] two digits in range. *)
Definition wireRecord (r : Expanded.t) : bool :=
  (String.eqb (Expanded.type r) "r" || String.eqb (Expanded.type r) "m")
  && isWeekdayCode (Expanded.day r)
  && twoDigitField 24 (Expanded.hour r) && twoDigitField 60 (Expanded.minute r).

(** The fields of [s] between the occurrences of [sep]. *)
Fixpoint splitOn (sep : ascii) (s : string) : list string :=
  match s with
  | "" => [""]
  | String a rest =>
      if Ascii.eqb a sep then "" :: splitOn sep rest
      else match splitOn sep rest with
           | [] => [String a ""]
           | field :: fields => String a field :: fields
           end
  end.

(** A decimal numeral, read as an integer. *)
Definition readNumber (numeral : string) : option Z :=
  option_map Z.of_int (NilZero.int_of_string numeral).

Definition readRecord (line : string) : option Expanded.t :=
  match splitOn comma line with
  | [code; day; hour; minute; message] => Some (Expanded.mk code day hour minute message)
  | _ => None
  end.

(** Read [n] record lines; answer them with the lines left over. *)
Fixpoint readRecords (n : nat) (lines : list string) : option (list Expanded.t * list string) :=
  match n with
  | O => Some ([], lines)
  | S n' =>
      match lines with
      | [] => None
      | line :: rest =>
          match readRecord line, readRecords n' rest with
          | Some r, Some (rs, remaining) => Some (r :: rs, remaining)
          | _, _ => None
          end
      end
  end.

Record Payload : Type := mkPayload {
  payloadRecords : list Expanded.t;
  payloadName : string;
  payloadPhone : string;
  payloadEmail : string;
  payloadMedicalInfo : string;
  payloadDeviceId : Z
}.

(** The reader of section 8: the count, then that many comma-delimited
    records, then the contact line, the medical-info line and the device
    identifier line.  It is the inverse that the specification describes;
    the repository has no reader of its own. *)
Definition readPayload (text : string) : option Payload :=
  match splitOn linefeed text with
  | count :: rest =>
      match readNumber count with
      | Some n =>
          match readRecords (Z.to_nat n) rest with
          | Some (rs, [contact; medical; device]) =>
              match splitOn comma contact, readNumber device with
              | [name; phone; email], Some deviceId =>
                  Some (mkPayload rs name phone email medical deviceId)
              | _, _ => None
              end
          | _ => None
          end
      | None => None
      end
  | [] => None
  end.

(** The first physical line of a text. *)
Definition firstLine (text : string) : string := hd "" (splitOn linefeed text).

(** The last code unit of a text. *)
Fixpoint lastCodeUnit (s : string) : option ascii :=
  match s with
  | "" => None
  | String a "" => Some a
  | String _ rest => lastCodeUnit rest
  end.

(** *** What the endpoint checks *)

(** The three checks of [POST], as one predicate on the body. *)
Definition passesChecks (data : FormData) : bool :=
  JS.truthy_string (name data) && JS.truthy_string (phone data)
  && JS.truthy_string (email data) && JS.truthy_string (medicalInfo data)
  && JS.truthy_number (deviceId data)
  && (1 <=? deviceId data)%Z && (deviceId data <=? 100)%Z
  && negb (List.length (alerts data) =? 0)%nat.

(** A record none of whose fields holds a comma or a newline. *)
Definition plainRecord (r : Expanded.t) : bool :=
  plainText (Expanded.type r) && plainText (Expanded.day r)
  && plainText (Expanded.hour r) && plainText (Expanded.minute r)
  && plainText (Expanded.message r).

(** *** Stand-ins for the browser functions, and sample inputs *)

(** A [trim] for code units in the ASCII range, to run [handleSubmit]
    on examples. *)
Definition isSpace (c : ascii) : bool :=
  ((9 <=? nat_of_ascii c) && (nat_of_ascii c <=? 13) || (nat_of_ascii c =? 32))%nat.

Fixpoint trimStart (s : string) : string :=
  match s with
  | String a rest => if isSpace a then trimStart rest else s
  | "" => ""
  end.

Fixpoint trimEnd (s : string) : string :=
  match s with
  | "" => ""
  | String a rest =>
      match trimEnd rest with
      | "" => if isSpace a then "" else String a ""
      | kept => String a kept
      end
  end.

Definition asciiTrim (s : string) : string := trimEnd (trimStart s).

(** A stand-in for [JSON.parse] that knows the empty array only. *)
Definition parseEmptyArray (text : string) : Database.Outcome (list Database.StoredDevice) :=
  if String.eqb text "[]" then Database.Return []
  else Database.Throw "SyntaxError: Unexpected token".

Definition ex_alert1 : Alert := mkAlert "Take pill" "Medicine" true [] "9" "0".

Definition ex_alert2 : Alert := mkAlert "Walk" "Reminder" false ["3"; "1"] "8" "30".

Definition ex_data2 : FormData :=
  mkFormData "Ann" "555" "a@b.c" "none" 100 [ex_alert2; ex_alert1].

Definition ex_data3 : FormData :=
  mkFormData "Ann" "555" "a@b.c" "none" 7
    [mkAlert "" "Other" false [] "7" "5"; ex_alert2].

Definition ex_data4 : FormData :=
  mkFormData "Ann" "555" "a@b.c" "none" 7 [mkAlert "" "Reminder" false [] "09" "00"].

Definition ex_form : Dashboard.Form :=
  Dashboard.mkForm "Ann" "555" "a@b.c" "none" "7"
    [Dashboard.mkAlert "k3x9" "  " "Reminder" true [] "09" "00";
     Dashboard.mkAlert "p0q1" "Walk" "Reminder" false ["3"; "1"] "8" "30"].

(** ** The dashboard page: the handlers that edit [alerts] *)

Module Editor.

(** [addAlert]; [id] stands for [Math.random().toString(36).substr(2, 9)]. *)
Definition addAlert (id : string) (alerts : list Dashboard.Alert) : list Dashboard.Alert :=
  let newAlert := Dashboard.mkAlert id "" "Reminder" false [] "09" "00" in
  (alerts ++ [newAlert])%list.

Definition removeAlert (id : string) (alerts : list Dashboard.Alert) : list Dashboard.Alert :=
  filter (fun alert => negb (String.eqb (Dashboard.id alert) id)) alerts.

(** A [field] of [keyof Alert] with a [value] of its type. *)
Inductive FieldValue : Type :=
| field_id (value : string)
| field_message (value : string)
| field_type (value : string)
| field_isEveryday (value : bool)
| field_selectedDays (value : list string)
| field_hour (value : string)
| field_minute (value : string).

(** [{ ...alert, [field]: value }]. *)
Definition spread (alert : Dashboard.Alert) (update : FieldValue) : Dashboard.Alert :=
  match update with
  | field_id value =>
      Dashboard.mkAlert value (Dashboard.message alert) (Dashboard.type alert)
        (Dashboard.isEveryday alert) (Dashboard.selectedDays alert)
        (Dashboard.hour alert) (Dashboard.minute alert)
  | field_message value =>
      Dashboard.mkAlert (Dashboard.id alert) value (Dashboard.type alert)
        (Dashboard.isEveryday alert) (Dashboard.selectedDays alert)
        (Dashboard.hour alert) (Dashboard.minute alert)
  | field_type value =>
      Dashboard.mkAlert (Dashboard.id alert) (Dashboard.message alert) value
        (Dashboard.isEveryday alert) (Dashboard.selectedDays alert)
        (Dashboard.hour alert) (Dashboard.minute alert)
  | field_isEveryday value =>
      Dashboard.mkAlert (Dashboard.id alert) (Dashboard.message alert) (Dashboard.type alert)
        value (Dashboard.selectedDays alert)
        (Dashboard.hour alert) (Dashboard.minute alert)
  | field_selectedDays value =>
      Dashboard.mkAlert (Dashboard.id alert) (Dashboard.message alert) (Dashboard.type alert)
        (Dashboard.isEveryday alert) value
        (Dashboard.hour alert) (Dashboard.minute alert)
  | field_hour value =>
      Dashboard.mkAlert (Dashboard.id alert) (Dashboard.message alert) (Dashboard.type alert)
        (Dashboard.isEveryday alert) (Dashboard.selectedDays alert)
        value (Dashboard.minute alert)
  | field_minute value =>
      Dashboard.mkAlert (Dashboard.id alert) (Dashboard.message alert) (Dashboard.type alert)
        (Dashboard.isEveryday alert) (Dashboard.selectedDays alert)
        (Dashboard.hour alert) value
  end.

Definition updateAlert (id : string) (update : FieldValue) (alerts : list Dashboard.Alert)
  : list Dashboard.Alert :=
  map (fun alert => if String.eqb (Dashboard.id alert) id then spread alert update else alert)
    alerts.

(** [arr.includes(x)] on an array of strings. *)
Definition includes (arr : list string) (x : string) : bool := existsb (String.eqb x) arr.

Definition toggleDay (alertId day : string) (alerts : list Dashboard.Alert)
  : list Dashboard.Alert :=
  map (fun alert =>
         if String.eqb (Dashboard.id alert) alertId then
           let selectedDays :=
             if includes (Dashboard.selectedDays alert) day
             then filter (fun d => negb (String.eqb d day)) (Dashboard.selectedDays alert)
             else (Dashboard.selectedDays alert ++ [day])%list in
           spread alert (field_selectedDays selectedDays)
         else alert)
    alerts.

Definition toggleEveryday (alertId : string) (checked : bool) (alerts : list Dashboard.Alert)
  : list Dashboard.Alert :=
  map (fun alert =>
         if String.eqb (Dashboard.id alert) alertId then
           Dashboard.mkAlert (Dashboard.id alert) (Dashboard.message alert)
             (Dashboard.type alert) checked
             (if checked then [] else Dashboard.selectedDays alert)
             (Dashboard.hour alert) (Dashboard.minute alert)
         else alert)
    alerts.

(** The table behind the day buttons: [value] and [label]. *)
Definition daysOfWeek : list (string * string) :=
  [("0", "Sun"); ("1", "Mon"); ("2", "Tue"); ("3", "Wed"); ("4", "Thu"); ("5", "Fri");
   ("6", "Sat")].

(** The calls that the rendered form makes on user input: the add and
    remove buttons, the message, type, hour and minute inputs, one button
    per entry of [daysOfWeek], the everyday checkbox. *)
Inductive Event : Type :=
| click_add (id : string)
| click_remove (id : string)
| change_message (id value : string)
| change_type (id value : string)
| change_hour (id value : string)
| change_minute (id value : string)
| click_day (id : string) (day : string * string)
| check_everyday (id : string) (checked : bool).

Definition handle (alerts : list Dashboard.Alert) (event : Event) : list Dashboard.Alert :=
  match event with
  | click_add id => addAlert id alerts
  | click_remove id => removeAlert id alerts
  | change_message id value => updateAlert id (field_message value) alerts
  | change_type id value => updateAlert id (field_type value) alerts
  | change_hour id value => updateAlert id (field_hour value) alerts
  | change_minute id value => updateAlert id (field_minute value) alerts
  | click_day id day => toggleDay id (fst day) alerts
  | check_everyday id checked => toggleEveryday id checked alerts
  end.

(** A day button exists only for an entry of [daysOfWeek]. *)
Definition rendered (event : Event) : bool :=
  match event with
  | click_day _ day =>
      existsb (fun entry => String.eqb (fst entry) (fst day) && String.eqb (snd entry) (snd day))
        daysOfWeek
  | _ => true
  end.

(** [alerts] after a sequence of events, from [useState<Alert[]>([])]. *)
Definition session (events : list Event) : list Dashboard.Alert := fold_left handle events [].

End Editor.

(** ** The dashboard page: [handleSubmit] after the request *)

Module Saving.

(** The argument of [toast]; [destructive] is [variant: "destructive"]. *)
Record Toast : Type := mkToast {
  title : string;
  description : string;
  destructive : bool
}.

(** What the rest of [handleSubmit] reads and writes: the
    [formattedOutput] state, the value stored under
    ["medicalAlertDevices"], the toasts shown. *)
Record View : Type := mkView {
  formattedOutput : string;
  localStorage : option string;
  toasts : list Toast
}.

Definition setFormattedOutput (output : string) (view : View) : View :=
  mkView output (localStorage view) (toasts view).

Definition setItem (text : string) (view : View) : View :=
  mkView (formattedOutput view) (Some text) (toasts view).

Definition toast (t : Toast) (view : View) : View :=
  mkView (formattedOutput view) (localStorage view) (JS.push (toasts view) t).

Section HandleResponse.

(** [JSON.parse] and [JSON.stringify], at the type of the stored list.
    Here [Throw] also stands for a text that parses to something other
    than an array, on which [unshift] throws inside the same [try]. *)
Variable JSON_parse : string -> Database.Outcome (list Database.StoredDevice).
Variable JSON_stringify : list Database.StoredDevice -> string.

(** [stored ? JSON.parse(stored) : []], lines 167 and 168. *)
Definition storedDevices (stored : option string)
  : Database.Outcome (list Database.StoredDevice) :=
  match stored with
  | Some text => if JS.truthy_string text then JSON_parse text else Database.Return []
  | None => Database.Return []
  end.

(** Lines 141 to 189: [fetched] is the outcome of [fetch]; [id] and
    [timestamp] stand for [Math.random()...] and [new Date().toISOString()].
    The route answers an error with status 400 or 500, so [response.ok]
    holds exactly for its success body.  A state change made before a
    throw stays. *)
Definition onResponse (id timestamp : string) (formData : FormData)
    (fetched : Database.Outcome NextResponse) (view : View) : View :=
  let failed :=
    mkToast "Error" "Failed to connect to the server." true in
  match fetched with
  | Database.Throw _ => toast failed view
  | Database.Return (json_error error _) =>
      toast (mkToast "Error"
               (if JS.truthy_string error then error
                else "Failed to process alert configuration.")
               true)
        view
  | Database.Return (json_success output) =>
      let view := setFormattedOutput output view in
      let deviceConfig :=
        Database.mkStoredDevice id timestamp (name formData) (phone formData) (email formData)
          (medicalInfo formData) (deviceId formData) (alerts formData) output in
      let stored := localStorage view in
      let devices := storedDevices stored in
      match devices with
      | Database.Throw _ => toast failed view
      | Database.Return devices =>
          let devices := deviceConfig :: devices in
          let view := setItem (JSON_stringify devices) view in
          toast (mkToast "Success!" "Alert configuration has been processed and saved." false)
            view
      end
  end.

(** The whole of [handleSubmit]: the checks, then the request to the
    route and what follows it.  [online] says whether [fetch] reaches the
    route. *)
Definition handleSubmit (parseInt : string -> option Z) (trim : string -> string)
    (id timestamp : string) (online : bool) (form : Dashboard.Form) (view : View) : View :=
  match Dashboard.handleSubmit parseInt trim form with
  | Dashboard.toast_destructive title description =>
      toast (mkToast title description true) view
  | Dashboard.fetch_process_alert formData response =>
      onResponse id timestamp formData
        (if online then Database.Return response
         else Database.Throw "TypeError: Failed to fetch")
        view
  end.

End HandleResponse.

End Saving.

(** ** The database page: the other handlers *)

Module Listing.

Section Handlers.

Variable JSON_stringify : list Database.StoredDevice -> string.

(** [deleteDevice]: the page afterwards and the toast shown. *)
Definition deleteDevice (id : string) (page : Database.Page) : Database.Page * Saving.Toast :=
  let updated :=
    filter (fun device => negb (String.eqb (Database.id device) id)) (Database.devices page) in
  (Database.mkPage (Some (JSON_stringify updated)) updated (Database.console page),
   Saving.mkToast "Device Deleted"
     "Device configuration has been removed from the database." false).

End Handlers.

(** [clearAllDevices]; [confirmed] is the answer to [confirm(...)]. *)
Definition clearAllDevices (confirmed : bool) (page : Database.Page)
  : Database.Page * option Saving.Toast :=
  if confirmed then
    (Database.mkPage None [] (Database.console page),
     Some (Saving.mkToast "Database Cleared" "All device configurations have been removed."
             false))
  else (page, None).

(** [arr[n]] for an integer [n]: [None] is [undefined]. *)
Definition at_index (arr : list string) (n : Z) : option string :=
  if (n <? 0)%Z then None else nth_error arr (Z.to_nat n).

(** [getDayLabel]; [parseInt] is [Number.parseInt], [None] for [NaN]. *)
Definition getDayLabel (parseInt : string -> option Z) (day : string) : string :=
  let days := ["Sun"; "Mon"; "Tue"; "Wed"; "Thu"; "Fri"; "Sat"] in
  match parseInt day with
  | Some n =>
      match at_index days n with
      | Some label => if JS.truthy_string label then label else day
      | None => day
      end
  | None => day
  end.

End Listing.

(** A stand-in for [JSON.stringify] that writes the empty array only. *)
Definition stringifyEmptyArray (devices : list Database.StoredDevice) : string :=
  match devices with
  | [] => "[]"
  | _ => "[...]"
  end.

(** The number of occurrences of the code unit [c] in [s]. *)
Fixpoint occurrences (c : ascii) (s : string) : nat :=
  match s with
  | "" => 0
  | String a rest => (if Ascii.eqb a c then 1 else 0) + occurrences c rest
  end.

(** [data] with another list of alerts. *)
Definition withAlerts (schedule : list Alert) (data : FormData) : FormData :=
  mkFormData (name data) (phone data) (email data) (medicalInfo data) (deviceId data) schedule.

Definition ex_data5 : FormData :=
  mkFormData "Ann" "555" "a@b.c" "two
lines" 7 [mkAlert "Walk" "Reminder" false ["1"] "24" ""].

(** A stand-in for [JSON.parse] that reads back what
    [stringifyEmptyArray] writes, given the list that was written. *)
Definition parseWritten (written : list Database.StoredDevice) (text : string)
  : Database.Outcome (list Database.StoredDevice) :=
  if String.eqb text "[]" then Database.Return []
  else if String.eqb text "[...]" then Database.Return written
  else Database.Throw "SyntaxError: Unexpected token".

Definition ex_form2 : Dashboard.Form :=
  Dashboard.mkForm "Ann" "555" "a@b.c" "none" "7"
    [Dashboard.mkAlert "p0q1" "Walk" "Reminder" false ["3"; "1"] "8" "30"].

Definition ex_formData2 : FormData :=
  mkFormData "Ann" "555" "a@b.c" "none" 7 [ex_alert2].

Definition ex_saved : Database.StoredDevice :=
  Database.mkStoredDevice "d1" "2025-01-01T00:00:00.000Z" "Ann" "555" "a@b.c" "none" 7
    [ex_alert2] (formatAlertData ex_formData2).

Definition ex_view : Saving.View := Saving.mkView "" None [].

Definition ex_view_malformed : Saving.View := Saving.mkView "" (Some "[{oops") [].

(** The selected days of an alert are weekday codes, each at most once. *)
Definition distinctWeekdays (alert : Dashboard.Alert) : bool :=
  distinct (Dashboard.selectedDays alert)
  && forallb isWeekdayCode (Dashboard.selectedDays alert).

(** [form] with another list of alerts. *)
Definition withFormAlerts (alerts : list Dashboard.Alert) (form : Dashboard.Form)
  : Dashboard.Form :=
  Dashboard.mkForm (Dashboard.name form) (Dashboard.phone form) (Dashboard.email form)
    (Dashboard.medicalInfo form) (Dashboard.deviceId form) alerts.

Definition ex_events : list Editor.Event :=
  [Editor.click_add "p0q1"; Editor.change_message "p0q1" "Walk";
   Editor.click_day "p0q1" ("3", "Wed"); Editor.click_day "p0q1" ("1", "Mon");
   Editor.click_day "p0q1" ("3", "Wed"); Editor.click_day "p0q1" ("3", "Wed")].

Definition ex_page : Database.Page := Database.mkPage (Some "[...]") [ex_saved] [].

(** ** Closed forms of the loops *)

Section Loops.

Context {A B : Type}.

Lemma forEach_push (f : A -> B) (arr : list A) (acc : list B) :
  JS.forEach arr (fun x acc => JS.push acc (f x)) acc = (acc ++ map f arr)%list.
Proof.
  unfold JS.forEach, JS.push.
  revert acc; induction arr as [|x arr IH]; intros acc; simpl.
  - now rewrite app_nil_r.
  - rewrite IH, <- app_assoc. reflexivity.
Qed.

Lemma for_from_push (f : Z -> B) (n : nat) (i : Z) (acc : list B) :
  JS.for_from n i (fun day acc => JS.push acc (f day)) acc
  = (acc ++ map (fun k => f (i + Z.of_nat k)%Z) (seq 0 n))%list.
Proof.
  revert i acc; induction n as [|n IH]; intros i acc.
  - simpl. now rewrite app_nil_r.
  - cbn [JS.for_from]. rewrite IH. unfold JS.push.
    rewrite <- app_assoc. f_equal. simpl. rewrite Z.add_0_r. f_equal.
    rewrite <- seq_shift, map_map.
    apply map_ext; intros k. f_equal. lia.
Qed.

End Loops.

(** One alert appends its expansion to [expandedAlerts]. *)
Lemma expandAlert_expansion (alert : Alert) (expandedAlerts : list Expanded.t) :
  expandAlert alert expandedAlerts = (expandedAlerts ++ expansion alert)%list.
Proof.
  unfold expandAlert, expansion, categoryCode.
  destruct (isEveryday alert).
  - unfold JS.for_le. rewrite for_from_push. reflexivity.
  - apply forEach_push.
Qed.

Lemma forEach_expandAlert (schedule : list Alert) (expandedAlerts : list Expanded.t) :
  JS.forEach schedule expandAlert expandedAlerts
  = (expandedAlerts ++ expandedRecords schedule)%list.
Proof.
  unfold JS.forEach, expandedRecords.
  revert expandedAlerts; induction schedule as [|alert schedule IH]; intros acc; simpl.
  - now rewrite app_nil_r.
  - rewrite IH, expandAlert_expansion, app_assoc. reflexivity.
Qed.

Lemma expandAlerts_expandedRecords (data : FormData) :
  expandAlerts data = expandedRecords (alerts data).
Proof. apply (forEach_expandAlert (alerts data) []). Qed.

Lemma alertLine_recordLine (r : Expanded.t) : alertLine r = recordLine r.
Proof. reflexivity. Qed.

Lemma formatLines_wireLines (data : FormData) : formatLines data = wireLines data.
Proof.
  unfold formatLines, wireLines.
  rewrite forEach_push, expandAlerts_expandedRecords.
  unfold JS.push, JS.length, commaJoined. simpl.
  rewrite <- !app_assoc. reflexivity.
Qed.

Lemma expansion_length (alert : Alert) :
  List.length (expansion alert)
  = if isEveryday alert then 7 else List.length (selectedDays alert).
Proof.
  unfold expansion. rewrite length_map. now destruct (isEveryday alert).
Qed.

Lemma expandedRecords_length (schedule : list Alert) :
  List.length (expandedRecords schedule) = expandedCount schedule.
Proof.
  unfold expandedRecords, expandedCount.
  induction schedule as [|alert schedule IH]; simpl.
  - reflexivity.
  - now rewrite length_app, expansion_length, IH.
Qed.

(** ** Strings: occurrences, splitting, numerals *)

Lemma occurs_append (c : ascii) (s t : string) :
  occurs c (s ++ t) = occurs c s || occurs c t.
Proof.
  induction s as [|a s IH]; simpl.
  - reflexivity.
  - now rewrite IH, orb_assoc.
Qed.

Lemma splitOn_free (sep : ascii) (s : string) :
  occurs sep s = false -> splitOn sep s = [s].
Proof.
  induction s as [|a s IH]; simpl; intros H.
  - reflexivity.
  - apply orb_false_elim in H as [Ha Hs].
    rewrite Ha, (IH Hs). reflexivity.
Qed.

Lemma splitOn_append (sep : ascii) (field rest : string) :
  occurs sep field = false ->
  splitOn sep (field ++ String sep rest) = field :: splitOn sep rest.
Proof.
  induction field as [|a field IH]; simpl; intros H.
  - now rewrite Ascii.eqb_refl.
  - apply orb_false_elim in H as [Ha Hs].
    rewrite Ha, (IH Hs). reflexivity.
Qed.

(** Splitting undoes joining, when no field holds the separator. *)
Lemma splitOn_concat (sep : ascii) (fields : list string) :
  fields <> [] ->
  forallb (fun field => negb (occurs sep field)) fields = true ->
  splitOn sep (String.concat (String sep "") fields) = fields.
Proof.
  induction fields as [|field fields IH]; intros Hne Hfree.
  - contradiction.
  - simpl in Hfree. apply andb_true_iff in Hfree as [Hfield Hrest].
    apply negb_true_iff in Hfield.
    destruct fields as [|next fields].
    + simpl. now apply splitOn_free.
    + change (String.concat (String sep "") (field :: next :: fields))
        with (field ++ String sep (String.concat (String sep "") (next :: fields))).
      rewrite splitOn_append by assumption.
      rewrite IH; [reflexivity | discriminate | assumption].
Qed.

Lemma lastCodeUnit_append (s t : string) :
  t <> "" -> lastCodeUnit (s ++ t) = lastCodeUnit t.
Proof.
  intros Ht. induction s as [|a s IH]; simpl.
  - reflexivity.
  - destruct (s ++ t) eqn:E.
    + destruct s; [simpl in E; contradiction | discriminate].
    + exact IH.
Qed.

Lemma lastCodeUnit_occurs (s : string) (c : ascii) :
  lastCodeUnit s = Some c -> occurs c s = true.
Proof.
  induction s as [|a s IH]; simpl; intros H.
  - discriminate.
  - destruct s as [|b s].
    + injection H as ->. now rewrite Ascii.eqb_refl.
    + rewrite (IH H). apply orb_true_r.
Qed.

(** The code units of a numeral are digits. *)
Lemma string_of_uint_digits (c : ascii) (d : uint) :
  occurs c (NilEmpty.string_of_uint d) = true -> isDigit c = true.
Proof.
  induction d; cbn [NilEmpty.string_of_uint occurs]; intros H;
    try discriminate;
    (apply orb_true_iff in H as [H|H]; [apply Ascii.eqb_eq in H; now subst | now apply IHd]).
Qed.

Lemma to_uint_not_Nil (p : positive) : Pos.to_uint p <> Nil.
Proof.
  intros E. pose proof (DecimalPos.Unsigned.of_to p) as H.
  rewrite E in H. discriminate.
Qed.

Lemma toString_code_units (c : ascii) (n : Z) :
  occurs c (JS.toString n) = true -> isDigit c = true \/ c = "-"%char.
Proof.
  unfold JS.toString, NilZero.string_of_int, NilZero.string_of_uint.
  destruct n as [|p|p]; cbn [Z.to_int].
  - cbn [NilEmpty.string_of_uint occurs]. rewrite orb_false_r.
    intros H. apply Ascii.eqb_eq in H. now left; subst.
  - pose proof (to_uint_not_Nil p) as Hp.
    destruct (Pos.to_uint p) eqn:E; try contradiction;
      rewrite <- E; intros H; left; eapply string_of_uint_digits;
      instantiate (1 := Pos.to_uint p); rewrite E; rewrite E in H; exact H.
  - pose proof (to_uint_not_Nil p) as Hp.
    cbn [occurs]. intros H. apply orb_true_iff in H as [H|H].
    + right. apply Ascii.eqb_eq in H. now subst.
    + left. destruct (Pos.to_uint p) eqn:E; try contradiction;
        eapply string_of_uint_digits; instantiate (1 := Pos.to_uint p);
        rewrite E; exact H.
Qed.

Lemma toString_free (c : ascii) (n : Z) :
  isDigit c = false -> c <> "-"%char -> occurs c (JS.toString n) = false.
Proof.
  intros Hd Hm. destruct (occurs c (JS.toString n)) eqn:E; [|reflexivity].
  apply toString_code_units in E as [E|E]; congruence.
Qed.

Lemma toString_not_empty (n : Z) : JS.toString n <> "".
Proof.
  unfold JS.toString, NilZero.string_of_int, NilZero.string_of_uint.
  destruct n as [|p|p]; cbn [Z.to_int]; try discriminate.
  pose proof (to_uint_not_Nil p) as Hp.
  destruct (Pos.to_uint p); try contradiction; discriminate.
Qed.

(** Reading a numeral that [toString] wrote gives the number back. *)
Lemma readNumber_toString (n : Z) : readNumber (JS.toString n) = Some n.
Proof.
  unfold readNumber, JS.toString.
  rewrite NilZero.isi.
  - simpl. now rewrite DecimalZ.of_to.
  - destruct n; cbn [Z.to_int]; try discriminate.
    intros [= E]. now apply to_uint_not_Nil in E.
  - destruct n; cbn [Z.to_int]; try discriminate.
    intros [= E]. now apply to_uint_not_Nil in E.
Qed.

(** ** Clock fields and weekday codes *)

Lemma clockValue_digits (field : string) (n : nat) (c : ascii) :
  clockValue field = Some n -> occurs c field = true -> isDigit c = true.
Proof.
  destruct field as [|a [|b [|x field]]]; cbn [clockValue occurs]; try discriminate.
  - destruct (isDigit a) eqn:Ha; [|discriminate]. intros _ H.
    rewrite orb_false_r in H. apply Ascii.eqb_eq in H. now subst.
  - destruct (isDigit a) eqn:Ha, (isDigit b) eqn:Hb; try discriminate. intros _ H.
    rewrite orb_false_r in H.
    apply orb_true_iff in H as [H|H]; apply Ascii.eqb_eq in H; now subst.
Qed.

(** [padStart(2, "0")] makes a clock field two digits long and keeps its
    value. *)
Lemma padStart_clockValue (field : string) (n : nat) :
  clockValue field = Some n ->
  clockValue (JS.padStart 2 "0" field) = Some n
  /\ String.length (JS.padStart 2 "0" field) = 2.
Proof.
  destruct field as [|a [|b [|x field]]]; cbn [clockValue]; try discriminate.
  - destruct (isDigit a) eqn:Ha; [|discriminate]. intros [= <-].
    split; [|reflexivity].
    change (JS.padStart 2 "0" (String a "")) with (String "0"%char (String a "")).
    cbn [clockValue]. rewrite Ha. reflexivity.
  - intros H. split; [exact H | reflexivity].
Qed.

Lemma padStart_twoDigitField (bound : nat) (field : string) :
  clockField bound field = true -> twoDigitField bound (JS.padStart 2 "0" field) = true.
Proof.
  unfold twoDigitField, clockField. destruct (clockValue field) as [n|] eqn:E; [|discriminate].
  intros Hn. destruct (padStart_clockValue field n E) as [-> ->]. now rewrite Hn.
Qed.

Lemma twoDigitField_plainText (bound : nat) (field : string) :
  twoDigitField bound field = true -> plainText field = true.
Proof.
  unfold twoDigitField, clockField. intros H. apply andb_true_iff in H as [_ H].
  destruct (clockValue field) as [n|] eqn:E; [|discriminate].
  unfold plainText. apply andb_true_iff; split; apply negb_true_iff.
  - destruct (occurs comma field) eqn:O; [|reflexivity].
    apply (clockValue_digits _ _ _ E) in O. discriminate.
  - destruct (occurs linefeed field) eqn:O; [|reflexivity].
    apply (clockValue_digits _ _ _ E) in O. discriminate.
Qed.

Lemma isWeekdayCode_In (day : string) : isWeekdayCode day = true <-> In day weekdayCodes.
Proof.
  unfold isWeekdayCode. rewrite existsb_exists. split.
  - intros [code [Hin Heq]]. apply String.eqb_eq in Heq. now subst.
  - intros Hin. exists day. split; [assumption | apply String.eqb_refl].
Qed.

Lemma isWeekdayCode_plainText (day : string) :
  isWeekdayCode day = true -> plainText day = true.
Proof.
  rewrite isWeekdayCode_In. unfold weekdayCodes. cbn [In].
  intros H; repeat (destruct H as [<-|H]; [reflexivity|]); contradiction.
Qed.

Lemma categoryCode_cases (category : string) :
  categoryCode category = "r" \/ categoryCode category = "m".
Proof. unfold categoryCode. destruct (String.eqb category "Reminder"); auto. Qed.

(** The expansion of a valid alert consists of records of the wire
    grammar. *)
Lemma expansion_wireRecord (alert : Alert) :
  validAlert alert = true -> forallb wireRecord (expansion alert) = true.
Proof.
  unfold validAlert. intros H.
  repeat (apply andb_true_iff in H as [H ?]).
  apply forallb_forall. intros r Hr. unfold expansion in Hr.
  apply in_map_iff in Hr as [day [<- Hday]].
  unfold wireRecord; cbn [Expanded.type Expanded.day Expanded.hour Expanded.minute].
  rewrite !andb_true_iff. split; [split; [split|]|].
  - destruct (categoryCode_cases (type alert)) as [-> | ->]; reflexivity.
  - destruct (isEveryday alert).
    + now apply isWeekdayCode_In.
    + match goal with F : forallb isWeekdayCode _ = true |- _ =>
        rewrite forallb_forall in F; now apply F end.
  - now apply padStart_twoDigitField.
  - now apply padStart_twoDigitField.
Qed.

Lemma expandedRecords_wireRecord (schedule : list Alert) :
  forallb validAlert schedule = true ->
  forallb wireRecord (expandedRecords schedule) = true.
Proof.
  unfold expandedRecords. induction schedule as [|alert schedule IH]; simpl; intros H.
  - reflexivity.
  - apply andb_true_iff in H as [Ha Hs].
    rewrite forallb_app, (expansion_wireRecord _ Ha), (IH Hs). reflexivity.
Qed.

Lemma expandedRecords_message (P : string -> bool) (schedule : list Alert) :
  forallb (fun alert => P (message alert)) schedule = true ->
  forallb (fun r => P (Expanded.message r)) (expandedRecords schedule) = true.
Proof.
  unfold expandedRecords. induction schedule as [|alert schedule IH]; simpl; intros H.
  - reflexivity.
  - apply andb_true_iff in H as [Ha Hs].
    rewrite forallb_app, (IH Hs), andb_true_r.
    apply forallb_forall. intros r Hr. unfold expansion in Hr.
    apply in_map_iff in Hr as [day [<- _]]. exact Ha.
Qed.

(** ** Expansion of one alert *)

(** C2.  An alert with [isEveryday = true] pushes exactly seven records,
    one per weekday code 0 to 6 in ascending order, each with the same
    category code, zero-padded hour, zero-padded minute and message; the
    content of [selectedDays] has no influence. *)
Theorem everyday_expansion (alert : Alert) (expandedAlerts : list Expanded.t) :
  isEveryday alert = true ->
  let record day :=
    Expanded.mk (categoryCode (type alert)) day
      (JS.padStart 2 "0" (hour alert)) (JS.padStart 2 "0" (minute alert)) (message alert) in
  forall days : list string,
    expandAlert
      (mkAlert (message alert) (type alert) true days (hour alert) (minute alert))
      expandedAlerts
    = (expandedAlerts
       ++ [record "0"; record "1"; record "2"; record "3"; record "4"; record "5";
           record "6"])%list
    /\ expandAlert alert expandedAlerts
       = expandAlert
           (mkAlert (message alert) (type alert) true days (hour alert) (minute alert))
           expandedAlerts.
Proof.
  intros Hevery record days. rewrite !expandAlert_expansion.
  unfold expansion. cbn [isEveryday type hour minute message]. rewrite Hevery.
  split; reflexivity.
Qed.

Lemma everyday_expansion_witness :
  isEveryday ex_alert1 = true
  /\ expandAlert ex_alert1 []
     = expandAlert (mkAlert "Take pill" "Medicine" true ["5"; "2"] "9" "0") [].
Proof.
  split; [reflexivity|].
  exact (proj2 (everyday_expansion ex_alert1 [] eq_refl ["5"; "2"])).
Defined.

(** C3.  An alert with [isEveryday = false] and a non-empty
    [selectedDays] pushes exactly one record per entry of [selectedDays],
    carrying that entry as its day, in the order of the stored array. *)
Theorem selectedDays_expansion (alert : Alert) (expandedAlerts : list Expanded.t) :
  isEveryday alert = false ->
  selectedDays alert <> [] ->
  let record day :=
    Expanded.mk (categoryCode (type alert)) day
      (JS.padStart 2 "0" (hour alert)) (JS.padStart 2 "0" (minute alert)) (message alert) in
  expandAlert alert expandedAlerts = (expandedAlerts ++ map record (selectedDays alert))%list
  /\ List.length (expandAlert alert []) = List.length (selectedDays alert)
  /\ map Expanded.day (expandAlert alert []) = selectedDays alert.
Proof.
  intros Hevery _ record. rewrite !expandAlert_expansion.
  rewrite !app_nil_l. unfold expansion. rewrite Hevery. split; [reflexivity|split].
  - apply length_map.
  - rewrite map_map. cbn [Expanded.day]. apply map_id.
Qed.

Lemma selectedDays_expansion_witness :
  isEveryday ex_alert2 = false /\ selectedDays ex_alert2 <> []
  /\ map Expanded.day (expandAlert ex_alert2 []) = ["3"; "1"].
Proof.
  assert (Hdays : selectedDays ex_alert2 <> []) by discriminate.
  split; [reflexivity|]. split; [exact Hdays|].
  exact (proj2 (proj2 (selectedDays_expansion ex_alert2 [] eq_refl Hdays))).
Defined.

(** C10.  The code of every record that an alert pushes is decided by
    string equality of its [type] with ["Reminder"]: ["r"] when equal,
    ["m"] for any other string. *)
Theorem categoryCode_by_equality (alert : Alert) (r : Expanded.t) :
  In r (expandAlert alert []) ->
  (type alert = "Reminder" -> Expanded.type r = "r")
  /\ (type alert <> "Reminder" -> Expanded.type r = "m").
Proof.
  rewrite expandAlert_expansion, app_nil_l. unfold expansion.
  intros Hr. apply in_map_iff in Hr as [day [<- _]]. cbn [Expanded.type].
  unfold categoryCode. split.
  - intros ->. reflexivity.
  - intros Hne. apply String.eqb_neq in Hne. now rewrite Hne.
Qed.

Lemma categoryCode_by_equality_witness :
  In (Expanded.mk "m" "2" "09" "00" "Take pill") (expandAlert ex_alert1 [])
  /\ type ex_alert1 <> "Reminder"
  /\ Expanded.type (Expanded.mk "m" "2" "09" "00" "Take pill") = "m".
Proof.
  assert (Hin : In (Expanded.mk "m" "2" "09" "00" "Take pill") (expandAlert ex_alert1 []))
    by (vm_compute; do 2 right; left; reflexivity).
  assert (Hne : type ex_alert1 <> "Reminder") by discriminate.
  split; [exact Hin|]. split; [exact Hne|].
  exact (proj2 (categoryCode_by_equality ex_alert1 _ Hin) Hne).
Defined.

Example categoryCode_examples :
  categoryCode "Reminder" = "r" /\ categoryCode "Medicine" = "m"
  /\ categoryCode "reminder" = "m" /\ categoryCode "" = "m".
Proof. repeat split. Qed.

(** ** The endpoint *)

Lemma length_zero_iff {A : Type} (arr : list A) :
  (JS.length arr =? 0)%Z = (List.length arr =? 0)%nat.
Proof. unfold JS.length. destruct arr; reflexivity. Qed.

(** A body that passes the three checks is encoded. *)
Lemma POST_passesChecks (data : FormData) :
  passesChecks data = true -> POST data = json_success (formatAlertData data).
Proof.
  unfold passesChecks, POST. rewrite !andb_true_iff.
  intros [[[[[[[Hn Hp] He] Hm] Hd] Hlo] Hhi] Ha].
  rewrite Hn, Hp, He, Hm, Hd. cbn [negb orb].
  apply Z.leb_le in Hlo, Hhi.
  replace (deviceId data <? 1)%Z with false by (symmetry; apply Z.ltb_ge; lia).
  replace (deviceId data >? 100)%Z with false by (symmetry; rewrite Z.gtb_ltb; apply Z.ltb_ge; lia).
  cbn [orb]. rewrite length_zero_iff. apply negb_true_iff in Ha. rewrite Ha. reflexivity.
Qed.

(** A body that fails one of them is answered with status 400. *)
Lemma POST_fails_checks (data : FormData) :
  passesChecks data = false -> exists error, POST data = json_error error 400.
Proof.
  unfold passesChecks, POST. intros H.
  destruct (negb (JS.truthy_string (name data)) || negb (JS.truthy_string (phone data))
            || negb (JS.truthy_string (email data))
            || negb (JS.truthy_string (medicalInfo data))
            || negb (JS.truthy_number (deviceId data))) eqn:Hmissing; [eauto|].
  destruct ((deviceId data <? 1)%Z || (deviceId data >? 100)%Z) eqn:Hrange; [eauto|].
  destruct (JS.length (alerts data) =? 0)%Z eqn:Hlen; [eauto|].
  exfalso.
  rewrite !orb_false_iff, !negb_false_iff in Hmissing.
  destruct Hmissing as [[[[Hn Hp] He] Hm] Hd].
  rewrite Hn, Hp, He, Hm, Hd in H. cbn [andb] in H.
  apply orb_false_iff in Hrange as [Hlo Hhi].
  apply Z.ltb_ge in Hlo. rewrite Z.gtb_ltb in Hhi. apply Z.ltb_ge in Hhi.
  apply Z.leb_le in Hlo, Hhi. rewrite Hlo, Hhi in H. cbn [andb] in H.
  rewrite length_zero_iff in Hlen. rewrite Hlen in H. discriminate.
Qed.

(** C7.  A body whose [deviceId] is below 1 or above 100 is answered with
    a status-400 error and no [formattedOutput]; with [deviceId] 1 or 100
    and the other fields valid, the body is accepted and encoded. *)
Theorem POST_deviceId_range (data : FormData) :
  ((deviceId data < 1 \/ deviceId data > 100)%Z ->
   (exists error, POST data = json_error error 400)
   /\ forall formattedOutput, POST data <> json_success formattedOutput)
  /\ ((deviceId data = 1 \/ deviceId data = 100)%Z ->
      JS.truthy_string (name data) = true -> JS.truthy_string (phone data) = true ->
      JS.truthy_string (email data) = true -> JS.truthy_string (medicalInfo data) = true ->
      alerts data <> [] ->
      POST data = json_success (formatAlertData data)).
Proof.
  split.
  - intros Hout.
    assert (Hfail : passesChecks data = false).
    { unfold passesChecks.
      destruct (1 <=? deviceId data)%Z eqn:Hlo, (deviceId data <=? 100)%Z eqn:Hhi;
        rewrite ?andb_false_r; try reflexivity.
      apply Z.leb_le in Hlo, Hhi. lia. }
    destruct (POST_fails_checks data Hfail) as [error Herr].
    split; [now exists error|]. intros out. rewrite Herr. discriminate.
  - intros Hid Hn Hp He Hm Ha. apply POST_passesChecks.
    unfold passesChecks. rewrite Hn, Hp, He, Hm. cbn [andb].
    destruct (alerts data) as [|alert schedule]; [contradiction|].
    destruct Hid as [-> | ->]; reflexivity.
Qed.

Lemma POST_deviceId_range_witness :
  ((deviceId (mkFormData "Ann" "555" "a@b.c" "none" 101 [ex_alert1]) > 100)%Z
   /\ exists error,
        POST (mkFormData "Ann" "555" "a@b.c" "none" 101 [ex_alert1]) = json_error error 400)
  /\ (deviceId ex_data2 = 100%Z
      /\ POST ex_data2 = json_success (formatAlertData ex_data2)).
Proof.
  split.
  - assert (Habove : (deviceId (mkFormData "Ann" "555" "a@b.c" "none" 101 [ex_alert1]) > 100)%Z)
      by reflexivity.
    split; [exact Habove|].
    exact (proj1 (proj1 (POST_deviceId_range _) (or_intror Habove))).
  - split; [reflexivity|].
    apply (proj2 (POST_deviceId_range ex_data2)); try reflexivity.
    + right. reflexivity.
    + discriminate.
Defined.

(** ** The lines of the output *)

Lemma occurs_concat (c : ascii) (sep : string) (fields : list string) :
  occurs c sep = false ->
  forallb (fun field => negb (occurs c field)) fields = true ->
  occurs c (String.concat sep fields) = false.
Proof.
  intros Hsep. induction fields as [|field fields IH]; intros H.
  - reflexivity.
  - cbn [forallb] in H. apply andb_true_iff in H as [Hfield Hrest].
    apply negb_true_iff in Hfield.
    destruct fields as [|next fields].
    + exact Hfield.
    + change (String.concat sep (field :: next :: fields))
        with (field ++ sep ++ String.concat sep (next :: fields)).
      rewrite !occurs_append, Hfield, Hsep, (IH Hrest). reflexivity.
Qed.

Lemma concat_last (sep : string) (fields : list string) (final : string) :
  exists before, String.concat sep (fields ++ [final]) = before ++ final.
Proof.
  induction fields as [|field fields [before IH]].
  - exists "". reflexivity.
  - exists (field ++ sep ++ before).
    change ((field :: fields) ++ [final])%list with (field :: (fields ++ [final]))%list.
    destruct (fields ++ [final])%list as [|next more] eqn:E.
    + now destruct fields.
    + change (String.concat sep (field :: next :: more))
        with (field ++ sep ++ String.concat sep (next :: more)).
      rewrite IH. clear. induction field as [|a field IHf]; simpl.
      * induction sep as [|b sep IHs]; simpl; [reflexivity | now rewrite IHs].
      * now rewrite IHf.
Qed.

Lemma firstLine_concat (header : string) (rest : list string) :
  occurs linefeed header = false ->
  firstLine (String.concat newline (header :: rest)) = header.
Proof.
  intros Hfree. unfold firstLine. destruct rest as [|next rest].
  - cbn [String.concat]. now rewrite splitOn_free.
  - change (String.concat newline (header :: next :: rest))
      with (header ++ String linefeed (String.concat newline (next :: rest))).
    now rewrite splitOn_append.
Qed.

Lemma linefeed_not_numeral : isDigit linefeed = false /\ linefeed <> "-"%char.
Proof. split; [reflexivity | discriminate]. Qed.

(** The first line of the output is the numeral of the number of record
    lines, whatever the body. *)
Lemma firstLine_formatAlertData (data : FormData) :
  firstLine (formatAlertData data)
  = JS.toString (Z.of_nat (List.length (expandedRecords (alerts data)))).
Proof.
  unfold formatAlertData, JS.join. rewrite formatLines_wireLines. unfold wireLines.
  apply firstLine_concat. apply toString_free; apply linefeed_not_numeral.
Qed.

(** The output does not end with a newline, whatever the body. *)
Lemma formatAlertData_last (data : FormData) :
  lastCodeUnit (formatAlertData data) = lastCodeUnit (JS.toString (deviceId data))
  /\ lastCodeUnit (formatAlertData data) <> Some linefeed.
Proof.
  assert (E : lastCodeUnit (formatAlertData data)
              = lastCodeUnit (JS.toString (deviceId data))).
  { unfold formatAlertData, JS.join, formatLines.
    set (lines := JS.push _ (medicalInfo data)). unfold JS.push at 1.
    destruct (concat_last newline lines (JS.toString (deviceId data))) as [before ->].
    apply lastCodeUnit_append, toString_not_empty. }
  split; [exact E|]. rewrite E. intros H. apply lastCodeUnit_occurs in H.
  rewrite toString_free in H; [discriminate | apply linefeed_not_numeral ..].
Qed.

Lemma forEach_total (schedule : list Alert) (total : Z) :
  JS.forEach schedule
    (fun alert total =>
       if isEveryday alert then (total + 7)%Z
       else (total + JS.length (selectedDays alert))%Z)
    total
  = (total + Z.of_nat (expandedCount schedule))%Z.
Proof.
  unfold JS.forEach, JS.length, expandedCount.
  revert total; induction schedule as [|alert schedule IH]; intros total; simpl.
  - lia.
  - rewrite IH. destruct (isEveryday alert); lia.
Qed.

(** The total that the database page shows for a stored configuration is
    the expanded count of the data model. *)
Lemma getTotalExpandedAlerts_expandedCount (device : Database.StoredDevice) :
  Database.getTotalExpandedAlerts device = Z.of_nat (expandedCount (Database.alerts device)).
Proof. unfold Database.getTotalExpandedAlerts. now rewrite forEach_total. Qed.

(** C9.  A body that passes the three checks of the endpoint is encoded
    ([POST] answers with the string that [formatAlertData] returns), also
    when an alert breaks the invariants of the data model: an alert with
    [isEveryday = false] and no selected day pushes no record, and the
    count on line 1 is the number of record lines. *)
Theorem POST_encodes_unvalidated_alerts (data : FormData) :
  passesChecks data = true ->
  POST data = json_success (formatAlertData data)
  /\ (forall alert expandedAlerts,
        isEveryday alert = false -> selectedDays alert = [] ->
        expandAlert alert expandedAlerts = expandedAlerts)
  /\ formatLines data
     = (firstLine (formatAlertData data)
          :: map alertLine (expandAlerts data)
          ++ [(name data ++ "," ++ phone data ++ "," ++ email data)%string;
              medicalInfo data; JS.toString (deviceId data)])%list
  /\ readNumber (firstLine (formatAlertData data))
     = Some (Z.of_nat (List.length (map alertLine (expandAlerts data)))).
Proof.
  intros Hchecks. split; [now apply POST_passesChecks|]. split; [|split].
  - intros alert acc Hevery Hdays. rewrite expandAlert_expansion.
    unfold expansion. rewrite Hevery, Hdays. apply app_nil_r.
  - rewrite firstLine_formatAlertData, formatLines_wireLines, expandAlerts_expandedRecords.
    reflexivity.
  - rewrite firstLine_formatAlertData, length_map, expandAlerts_expandedRecords.
    apply readNumber_toString.
Qed.

Lemma POST_encodes_unvalidated_alerts_witness :
  passesChecks ex_data3 = true
  /\ POST ex_data3 = json_success (formatAlertData ex_data3)
  /\ readNumber (firstLine (formatAlertData ex_data3)) = Some 2%Z.
Proof.
  split; [reflexivity|].
  pose proof (POST_encodes_unvalidated_alerts ex_data3 eq_refl) as [Hpost [_ [_ Hcount]]].
  split; [exact Hpost | exact Hcount].
Defined.

(** ** Valid configurations *)

Lemma validConfiguration_alerts (data : FormData) :
  validConfiguration data = true -> forallb validAlert (alerts data) = true.
Proof. unfold validConfiguration. intros H. now apply andb_true_iff in H as [_ H]. Qed.

(** A valid configuration passes the checks of the endpoint. *)
Lemma validConfiguration_passesChecks (data : FormData) :
  validConfiguration data = true -> passesChecks data = true.
Proof.
  unfold validConfiguration, passesChecks. rewrite !andb_true_iff.
  intros [[[[[[[Hn Hp] He] Hm] Hlo] Hhi] Ha] _]. repeat split; try assumption.
  unfold JS.truthy_number. apply negb_true_iff, Z.eqb_neq. apply Z.leb_le in Hlo. lia.
Qed.

(** C4.  For a valid configuration, the number on line 1 of the output is
    the sum over the alerts of 7 if everyday, else the number of selected
    days, and it is the number of record lines that follow line 1. *)
Theorem header_is_expanded_count (data : FormData) :
  validConfiguration data = true ->
  readNumber (firstLine (formatAlertData data))
  = Some (Z.of_nat (expandedCount (alerts data)))
  /\ formatLines data
     = (firstLine (formatAlertData data)
          :: map alertLine (expandAlerts data)
          ++ [(name data ++ "," ++ phone data ++ "," ++ email data)%string;
              medicalInfo data; JS.toString (deviceId data)])%list
  /\ List.length (map alertLine (expandAlerts data)) = expandedCount (alerts data).
Proof.
  intros _. rewrite firstLine_formatAlertData, expandedRecords_length. repeat split.
  - apply readNumber_toString.
  - rewrite formatLines_wireLines, expandAlerts_expandedRecords. unfold wireLines.
    now rewrite expandedRecords_length.
  - now rewrite length_map, expandAlerts_expandedRecords, expandedRecords_length.
Qed.

Lemma header_is_expanded_count_witness :
  validConfiguration ex_data2 = true
  /\ readNumber (firstLine (formatAlertData ex_data2)) = Some 9%Z.
Proof.
  split; [reflexivity|].
  exact (proj1 (header_is_expanded_count ex_data2 eq_refl)).
Defined.

(** C1.  For a valid configuration the output is, joined by single
    newlines: the decimal count of expanded records; one line
    [code,day,hour,minute,message] per expanded record, with [code] in
    {r, m}, [day] a weekday code, [hour] and [minute] two digits and the
    message as given; the line [name,phone,email]; the medical-info text;
    the decimal device identifier.  The output does not end with a
    newline. *)
Theorem formatAlertData_wire_format (data : FormData) :
  validConfiguration data = true ->
  formatAlertData data = String.concat newline (wireLines data)
  /\ forallb wireRecord (expandedRecords (alerts data)) = true
  /\ (forall alert r,
        In alert (alerts data) -> In r (expansion alert) ->
        clockValue (Expanded.hour r) = clockValue (hour alert)
        /\ clockValue (Expanded.minute r) = clockValue (minute alert)
        /\ Expanded.message r = message alert)
  /\ lastCodeUnit (formatAlertData data) = lastCodeUnit (JS.toString (deviceId data))
  /\ lastCodeUnit (formatAlertData data) <> Some linefeed.
Proof.
  intros Hvalid. pose proof (validConfiguration_alerts data Hvalid) as Halerts.
  split; [|split; [|split]].
  - unfold formatAlertData, JS.join. now rewrite formatLines_wireLines.
  - now apply expandedRecords_wireRecord.
  - intros alert r Halert Hr.
    rewrite forallb_forall in Halerts. specialize (Halerts alert Halert).
    unfold validAlert in Halerts. rewrite !andb_true_iff in Halerts.
    destruct Halerts as [[_ Hhour] Hminute].
    unfold expansion in Hr. apply in_map_iff in Hr as [day [<- _]].
    cbn [Expanded.hour Expanded.minute Expanded.message].
    unfold clockField in Hhour, Hminute.
    destruct (clockValue (hour alert)) as [hh|] eqn:Ehh; [|discriminate].
    destruct (clockValue (minute alert)) as [mm|] eqn:Emm; [|discriminate].
    repeat split.
    + apply (padStart_clockValue _ _ Ehh).
    + apply (padStart_clockValue _ _ Emm).
  - apply formatAlertData_last.
Qed.

Lemma formatAlertData_wire_format_witness :
  validConfiguration ex_data2 = true
  /\ formatAlertData ex_data2 = String.concat newline (wireLines ex_data2).
Proof.
  split; [reflexivity|].
  exact (proj1 (formatAlertData_wire_format ex_data2 eq_refl)).
Defined.

Example formatAlertData_ex_data2 :
  formatAlertData ex_data2
  = "9
r,3,08,30,Walk
r,1,08,30,Walk
m,0,09,00,Take pill
m,1,09,00,Take pill
m,2,09,00,Take pill
m,3,09,00,Take pill
m,4,09,00,Take pill
m,5,09,00,Take pill
m,6,09,00,Take pill
Ann,555,a@b.c
none
100".
Proof. reflexivity. Qed.

(** ** Reading the output back *)

Lemma plainText_free (s : string) :
  plainText s = true -> occurs comma s = false /\ occurs linefeed s = false.
Proof.
  unfold plainText. intros H. apply andb_true_iff in H as [Hc Hl].
  now rewrite negb_true_iff in Hc, Hl.
Qed.

Lemma wireRecord_plainRecord (r : Expanded.t) :
  wireRecord r = true -> plainText (Expanded.message r) = true -> plainRecord r = true.
Proof.
  unfold wireRecord, plainRecord. rewrite !andb_true_iff.
  intros [[[Hcode Hday] Hhour] Hminute] Hmessage. repeat split.
  - apply orb_true_iff in Hcode as [H|H]; apply String.eqb_eq in H; now rewrite H.
  - now apply isWeekdayCode_plainText.
  - now apply twoDigitField_plainText in Hhour.
  - now apply twoDigitField_plainText in Hminute.
  - exact Hmessage.
Qed.

Lemma plainRecord_fields (c : ascii) (r : Expanded.t) :
  c = comma \/ c = linefeed ->
  plainRecord r = true ->
  forallb (fun field => negb (occurs c field))
    [Expanded.type r; Expanded.day r; Expanded.hour r; Expanded.minute r;
     Expanded.message r] = true.
Proof.
  unfold plainRecord. rewrite !andb_true_iff.
  intros Hc [[[[Ht Hd] Hh] Hm] Hmsg].
  apply plainText_free in Ht, Hd, Hh, Hm, Hmsg.
  cbn [forallb]. rewrite !andb_true_iff, !negb_true_iff.
  destruct Hc as [-> | ->]; intuition.
Qed.

Lemma readRecord_recordLine (r : Expanded.t) :
  plainRecord r = true -> readRecord (recordLine r) = Some r.
Proof.
  intros Hplain. unfold readRecord, recordLine, commaJoined.
  change "," with (String comma "").
  rewrite splitOn_concat.
  - now destruct r.
  - discriminate.
  - apply plainRecord_fields; auto.
Qed.

Lemma recordLine_linefree (r : Expanded.t) :
  plainRecord r = true -> occurs linefeed (recordLine r) = false.
Proof.
  intros Hplain. unfold recordLine, commaJoined. apply occurs_concat.
  - reflexivity.
  - apply plainRecord_fields; auto.
Qed.

Lemma readRecords_recordLines (rs : list Expanded.t) (remaining : list string) :
  forallb plainRecord rs = true ->
  readRecords (List.length rs) (map recordLine rs ++ remaining) = Some (rs, remaining).
Proof.
  induction rs as [|r rs IH]; intros H.
  - reflexivity.
  - cbn [forallb] in H. apply andb_true_iff in H as [Hr Hrs].
    cbn [List.length map Datatypes.app readRecords].
    now rewrite (readRecord_recordLine r Hr), (IH Hrs).
Qed.

Lemma expandedRecords_plainRecord (schedule : list Alert) :
  forallb validAlert schedule = true ->
  forallb (fun alert => plainText (message alert)) schedule = true ->
  forallb plainRecord (expandedRecords schedule) = true.
Proof.
  intros Hvalid Hplain.
  pose proof (expandedRecords_wireRecord schedule Hvalid) as Hwire.
  pose proof (expandedRecords_message plainText schedule Hplain) as Hmsg.
  rewrite forallb_forall in Hwire, Hmsg. apply forallb_forall. intros r Hr.
  apply wireRecord_plainRecord; auto.
Qed.

(** The lines of the wire format hold no newline when the records and the
    scalar fields are plain. *)
Lemma wireLines_linefree (data : FormData) :
  forallb plainRecord (expandedRecords (alerts data)) = true ->
  plainText (name data) = true -> plainText (phone data) = true ->
  plainText (email data) = true -> plainText (medicalInfo data) = true ->
  forallb (fun line => negb (occurs linefeed line)) (wireLines data) = true.
Proof.
  intros Hrs Hn Hp He Hm. unfold wireLines. cbn [forallb].
  apply plainText_free in Hn as [_ Hn], Hp as [_ Hp], He as [_ He], Hm as [_ Hm].
  rewrite forallb_app. rewrite !andb_true_iff. split; [|split].
  - apply negb_true_iff, toString_free; apply linefeed_not_numeral.
  - apply forallb_forall. intros line Hline.
    apply in_map_iff in Hline as [r [<- Hr]].
    rewrite forallb_forall in Hrs. apply negb_true_iff, recordLine_linefree. auto.
  - cbn [forallb]. rewrite !andb_true_iff, !negb_true_iff. repeat split.
    + unfold commaJoined. apply occurs_concat; [reflexivity|].
      cbn [forallb]. now rewrite Hn, Hp, He.
    + exact Hm.
    + apply toString_free; apply linefeed_not_numeral.
Qed.

(** C5.  For a valid configuration whose name, phone, email, medical
    info and alert messages hold no comma and no newline, reading the
    output back (count, that many comma-delimited records, contact line,
    medical-info line, device-identifier line) gives the expanded records,
    the three contact fields, the medical info and the device identifier
    that produced it. *)
Theorem readPayload_formatAlertData (data : FormData) :
  validConfiguration data = true ->
  plainText (name data) = true -> plainText (phone data) = true ->
  plainText (email data) = true -> plainText (medicalInfo data) = true ->
  forallb (fun alert => plainText (message alert)) (alerts data) = true ->
  readPayload (formatAlertData data)
  = Some (mkPayload (expandAlerts data) (name data) (phone data) (email data)
            (medicalInfo data) (deviceId data)).
Proof.
  intros Hvalid Hn Hp He Hm Hmsg.
  pose proof (expandedRecords_plainRecord _ (validConfiguration_alerts _ Hvalid) Hmsg) as Hrs.
  unfold readPayload, formatAlertData, JS.join.
  rewrite formatLines_wireLines, expandAlerts_expandedRecords.
  change newline with (String linefeed "").
  rewrite splitOn_concat;
    [| unfold wireLines; discriminate | now apply wireLines_linefree].
  unfold wireLines. rewrite readNumber_toString, Nat2Z.id.
  rewrite readRecords_recordLines by exact Hrs.
  unfold commaJoined. change "," with (String comma "").
  rewrite splitOn_concat; [| discriminate |].
  - now rewrite readNumber_toString.
  - apply plainText_free in Hn as [Hn _], Hp as [Hp _], He as [He _].
    cbn [forallb]. now rewrite Hn, Hp, He.
Qed.

Lemma readPayload_formatAlertData_witness :
  validConfiguration ex_data2 = true
  /\ readPayload (formatAlertData ex_data2)
     = Some (mkPayload (expandAlerts ex_data2) "Ann" "555" "a@b.c" "none" 100).
Proof.
  split; [reflexivity|].
  exact (readPayload_formatAlertData ex_data2 eq_refl eq_refl eq_refl eq_refl eq_refl eq_refl).
Defined.

(** ** Alerts that break the invariants *)

(** C6 as stated fails at the endpoint, which does not look into the
    alerts: a body whose only alert has an empty message and, not being
    everyday, no selected day, is answered with success and a payload of
    zero records. *)
Lemma POST_encodes_invalid_alert :
  (exists alert,
      In alert (alerts ex_data4)
      /\ message alert = "" /\ isEveryday alert = false /\ selectedDays alert = [])
  /\ POST ex_data4
     = json_success "0
Ann,555,a@b.c
none
7".
Proof.
  split; [|reflexivity].
  exists (mkAlert "" "Reminder" false [] "09" "00"). cbn. auto.
Qed.

Section FormValidation.

Import Dashboard.

Variable parseInt : string -> option Z.
Variable trim : string -> string.

Lemma filter_invalidAlert (schedule : list Dashboard.Alert) (alert : Dashboard.Alert) :
  In alert schedule -> invalidAlert trim alert = true ->
  (JS.length (filter (invalidAlert trim) schedule) >? 0)%Z = true.
Proof.
  intros Hin Hinvalid.
  assert (Hfiltered : In alert (filter (invalidAlert trim) schedule))
    by (apply filter_In; auto).
  unfold JS.length. destruct (filter (invalidAlert trim) schedule); [contradiction|].
  reflexivity.
Qed.

(** Every early [return] of [handleSubmit] is a destructive toast, and
    the request is sent only when no alert is invalid. *)
Lemma handleSubmit_fetch (form : Form) (formData : FormData) (response : NextResponse) :
  handleSubmit parseInt trim form = fetch_process_alert formData response ->
  filter (invalidAlert trim) (Dashboard.alerts form) = []
  /\ response = POST formData.
Proof.
  unfold handleSubmit.
  destruct (_ || _); [discriminate|].
  destruct (parseInt (Dashboard.deviceId form)) as [deviceIdNum|]; [|discriminate].
  destruct (_ || _); [discriminate|].
  destruct (_ =? _)%Z; [discriminate|].
  destruct (filter (invalidAlert trim) (Dashboard.alerts form)) as [|bad rest] eqn:E.
  - cbn. intros [= <- <-]. auto.
  - unfold JS.length. cbn. discriminate.
Qed.

End FormValidation.

(** C6, as the code has it.  A form submission with an alert whose
    message is empty once trimmed, or with an alert that is not everyday
    and has no selected day, ends in a destructive toast before the
    request is sent: [handleSubmit] does not call the endpoint, so the
    encoder does not run. *)
Theorem handleSubmit_rejects_invalid_alert
    (parseInt : string -> option Z) (trim : string -> string) (form : Dashboard.Form) :
  (exists alert,
      In alert (Dashboard.alerts form)
      /\ (trim (Dashboard.message alert) = ""
          \/ (Dashboard.isEveryday alert = false /\ Dashboard.selectedDays alert = []))) ->
  (exists title description,
      Dashboard.handleSubmit parseInt trim form = Dashboard.toast_destructive title description)
  /\ forall formData response,
       Dashboard.handleSubmit parseInt trim form
       <> Dashboard.fetch_process_alert formData response.
Proof.
  intros [alert [Hin Hbad]].
  assert (Hinvalid : Dashboard.invalidAlert trim alert = true).
  { unfold Dashboard.invalidAlert. destruct Hbad as [-> | [-> ->]].
    - reflexivity.
    - cbn. apply orb_true_r. }
  pose proof (filter_invalidAlert trim _ _ Hin Hinvalid) as Hfilter.
  destruct (Dashboard.handleSubmit parseInt trim form) as [title description|formData response] eqn:E.
  - split; [eauto | discriminate].
  - apply handleSubmit_fetch in E as [E _]. rewrite E in Hfilter. discriminate.
Qed.

Lemma handleSubmit_rejects_invalid_alert_witness :
  (exists alert,
      In alert (Dashboard.alerts ex_form)
      /\ (asciiTrim (Dashboard.message alert) = ""
          \/ (Dashboard.isEveryday alert = false /\ Dashboard.selectedDays alert = [])))
  /\ exists title description,
       Dashboard.handleSubmit readNumber asciiTrim ex_form
       = Dashboard.toast_destructive title description.
Proof.
  assert (Hbad : exists alert,
             In alert (Dashboard.alerts ex_form)
             /\ (asciiTrim (Dashboard.message alert) = ""
                 \/ (Dashboard.isEveryday alert = false
                     /\ Dashboard.selectedDays alert = []))).
  { exists (Dashboard.mkAlert "k3x9" "  " "Reminder" true [] "09" "00").
    split; [left; reflexivity | left; reflexivity]. }
  split; [exact Hbad|].
  exact (proj1 (handleSubmit_rejects_invalid_alert readNumber asciiTrim ex_form Hbad)).
Defined.

Example handleSubmit_ex_form :
  Dashboard.handleSubmit readNumber asciiTrim ex_form
  = Dashboard.toast_destructive "Invalid Alerts"
      "All alerts must have a message and at least one day selected.".
Proof. reflexivity. Qed.

(** ** The database page *)

Section StoredData.

Import Database.

Variable JSON_parse : string -> Outcome (list StoredDevice).

(** With nothing stored, or the empty string stored, [loadDevices]
    returns without parsing, logging or changing the page. *)
Lemma loadDevices_nothing_stored (page : Page) :
  localStorage page = None \/ localStorage page = Some "" ->
  loadDevices JSON_parse page = Return page.
Proof. unfold loadDevices. intros [-> | ->]; reflexivity. Qed.

(** Stored text that parses becomes the device list. *)
Lemma loadDevices_parsed (page : Page) (text : string) (parsed : list StoredDevice) :
  localStorage page = Some text -> JS.truthy_string text = true ->
  JSON_parse text = Return parsed ->
  loadDevices JSON_parse page = Return (setDevices parsed page).
Proof. unfold loadDevices. intros -> -> ->. reflexivity. Qed.

End StoredData.

(** C8.  When the stored text fails to parse ([JSON.parse] throws on it),
    [loadDevices] returns normally: it writes one console error, leaves
    the device list as it was (empty when the page has just mounted) and
    leaves the stored text untouched. *)
Theorem loadDevices_malformed
    (JSON_parse : string -> Database.Outcome (list Database.StoredDevice))
    (page : Database.Page) (text error : string) :
  Database.localStorage page = Some text ->
  JS.truthy_string text = true ->
  JSON_parse text = Database.Throw error ->
  Database.loadDevices JSON_parse page
  = Database.Return
      (Database.mkPage (Some text) (Database.devices page)
         (Database.console page ++ ["[v0] Error loading devices: " ++ error]%string)%list)
  /\ Database.loadDevices JSON_parse (Database.mount (Some text))
     = Database.Return
         (Database.mkPage (Some text) [] ["[v0] Error loading devices: " ++ error]%string).
Proof.
  intros Hstored Htruthy Hthrow.
  unfold Database.loadDevices, Database.mount. cbn [Database.localStorage].
  rewrite Hstored, Htruthy, Hthrow.
  cbn [Database.bind Database.try_catch]. unfold Database.console_error, JS.push.
  cbn [Database.localStorage Database.devices Database.console].
  rewrite Hstored. split; reflexivity.
Qed.

Lemma loadDevices_malformed_witness :
  JS.truthy_string "[{oops" = true
  /\ parseEmptyArray "[{oops" = Database.Throw "SyntaxError: Unexpected token"
  /\ Database.loadDevices parseEmptyArray (Database.mount (Some "[{oops"))
     = Database.Return
         (Database.mkPage (Some "[{oops") []
            ["[v0] Error loading devices: SyntaxError: Unexpected token"]).
Proof.
  split; [reflexivity|]. split; [reflexivity|].
  exact (proj2 (loadDevices_malformed parseEmptyArray (Database.mount (Some "[{oops"))
                  "[{oops" "SyntaxError: Unexpected token" eq_refl eq_refl eq_refl)).
Defined.

(** ** More on the route *)

Lemma POST_error_status (data : FormData) (error : string) (status : Z) :
  POST data = json_error error status ->
  status = 400%Z
  /\ (error = "Missing required fields" \/ error = "Device ID must be between 1 and 100"
      \/ error = "At least one alert is required").
Proof.
  unfold POST.
  destruct (_ || _); [intros [= <- <-]; auto|].
  destruct (_ || _); [intros [= <- <-]; auto|].
  destruct (_ =? _)%Z; [intros [= <- <-]; auto | discriminate].
Qed.

Lemma truthy_string_iff (s : string) : JS.truthy_string s = true <-> s <> "".
Proof. destruct s; cbn; split; congruence. Qed.

Lemma passesChecks_iff (data : FormData) :
  passesChecks data = true
  <-> name data <> "" /\ phone data <> "" /\ email data <> "" /\ medicalInfo data <> ""
      /\ (1 <= deviceId data <= 100)%Z /\ alerts data <> [].
Proof.
  unfold passesChecks. rewrite !andb_true_iff, !truthy_string_iff, !Z.leb_le.
  unfold JS.truthy_number. rewrite !negb_true_iff, Z.eqb_neq, Nat.eqb_neq.
  split.
  - intros [[[[[[[Hn Hp] He] Hm] _] Hlo] Hhi] Ha]. repeat split; try assumption.
    intros E. rewrite E in Ha. now apply Ha.
  - intros [Hn [Hp [He [Hm [[Hlo Hhi] Ha]]]]]. repeat split; try assumption; try lia.
    destruct (alerts data); [contradiction | discriminate].
Qed.

(** X1.  The endpoint answers a well-typed body with success exactly when
    the four texts are non-empty, [deviceId] is within 1 to 100 and there
    is an alert; the success body is then the encoder's output.  Every
    other answer is one of three errors, with status 400. *)
Theorem POST_success_iff (data : FormData) :
  ((exists formattedOutput, POST data = json_success formattedOutput)
   <-> name data <> "" /\ phone data <> "" /\ email data <> "" /\ medicalInfo data <> ""
       /\ (1 <= deviceId data <= 100)%Z /\ alerts data <> [])
  /\ (forall formattedOutput,
        POST data = json_success formattedOutput -> formattedOutput = formatAlertData data)
  /\ (forall error status,
        POST data = json_error error status ->
        status = 400%Z
        /\ (error = "Missing required fields"
            \/ error = "Device ID must be between 1 and 100"
            \/ error = "At least one alert is required")).
Proof.
  split; [|split].
  - rewrite <- passesChecks_iff. split.
    + intros [out Hout]. destruct (passesChecks data) eqn:E; [reflexivity|].
      destruct (POST_fails_checks data E) as [error Herr]. congruence.
    + intros H. exists (formatAlertData data). now apply POST_passesChecks.
  - intros out Hout. destruct (passesChecks data) eqn:E.
    + rewrite (POST_passesChecks data E) in Hout. congruence.
    + destruct (POST_fails_checks data E) as [error Herr]. congruence.
  - apply POST_error_status.
Qed.

Lemma POST_success_iff_witness :
  POST ex_data2 = json_success (formatAlertData ex_data2)
  /\ formatAlertData ex_data2 = formatAlertData ex_data2.
Proof.
  assert (H : POST ex_data2 = json_success (formatAlertData ex_data2)) by reflexivity.
  split; [exact H|].
  exact (proj1 (proj2 (POST_success_iff ex_data2)) _ H).
Defined.

(** X2.  The records of the alerts are laid out alert by alert: for a
    list of alerts in two parts, [expandedAlerts] is the records of the
    first part followed by the records of the second. *)
Theorem expandAlerts_append (data : FormData) (first second : list Alert) :
  expandAlerts (withAlerts (first ++ second)%list data)
  = (expandAlerts (withAlerts first data) ++ expandAlerts (withAlerts second data))%list.
Proof.
  unfold expandAlerts, withAlerts, JS.forEach. cbn [alerts].
  rewrite fold_left_app.
  change (fold_left (fun acc x => expandAlert x acc) second
            (fold_left (fun acc x => expandAlert x acc) first []))
    with (JS.forEach second expandAlert (JS.forEach first expandAlert [])).
  rewrite (forEach_expandAlert second).
  change (fold_left (fun acc x => expandAlert x acc) second [])
    with (JS.forEach second expandAlert []).
  now rewrite (forEach_expandAlert second []).
Qed.

Lemma occurrences_append (c : ascii) (s t : string) :
  occurrences c (s ++ t) = occurrences c s + occurrences c t.
Proof.
  induction s as [|a s IH]; simpl; [reflexivity|]. rewrite IH. lia.
Qed.

Lemma splitOn_length (c : ascii) (s : string) :
  List.length (splitOn c s) = S (occurrences c s).
Proof.
  induction s as [|a s IH]; cbn [splitOn occurrences]; [reflexivity|].
  destruct (Ascii.eqb a c).
  - cbn [List.length]. now rewrite IH.
  - destruct (splitOn c s) as [|field fields]; [discriminate|]. exact IH.
Qed.

Lemma occurrences_concat (c : ascii) (lines : list string) :
  lines <> [] ->
  S (occurrences c (String.concat (String c "") lines))
  = List.length lines + list_sum (map (occurrences c) lines).
Proof.
  induction lines as [|line lines IH]; intros Hne; [contradiction|].
  destruct lines as [|next lines].
  - cbn. lia.
  - change (String.concat (String c "") (line :: next :: lines))
      with (line ++ String c (String.concat (String c "") (next :: lines))).
    assert (Hnext : next :: lines <> []) by discriminate.
    specialize (IH Hnext).
    set (rest := String.concat (String c "") (next :: lines)) in *.
    rewrite occurrences_append. cbn [occurrences]. rewrite Ascii.eqb_refl.
    change (List.length (line :: next :: lines)) with (S (List.length (next :: lines))).
    change (list_sum (map (occurrences c) (line :: next :: lines)))
      with (occurrences c line + list_sum (map (occurrences c) (next :: lines))).
    lia.
Qed.

Lemma formatLines_length (data : FormData) :
  List.length (formatLines data) = expandedCount (alerts data) + 4.
Proof.
  rewrite formatLines_wireLines. unfold wireLines. cbn [List.length].
  rewrite length_app, length_map, expandedRecords_length. cbn [List.length]. lia.
Qed.

(** X3.  The output has one physical line per entry of [lines], that is
    the expanded count plus four, and one more for every newline that
    sits inside an entry (a message, a contact field, the medical info):
    embedded newlines are not escaped. *)
Theorem formatAlertData_physical_lines (data : FormData) :
  List.length (splitOn linefeed (formatAlertData data))
  = expandedCount (alerts data) + 4
    + list_sum (map (occurrences linefeed) (formatLines data)).
Proof.
  rewrite splitOn_length. unfold formatAlertData, JS.join.
  change newline with (String linefeed "").
  rewrite occurrences_concat, formatLines_length; [reflexivity|].
  rewrite formatLines_wireLines. discriminate.
Qed.

Lemma padStart_2_0 (s : string) :
  JS.padStart 2 "0" s
  = match String.length s with
    | 0 => "00"
    | 1 => "0" ++ s
    | _ => s
    end.
Proof. destruct s as [|a [|b s]]; reflexivity. Qed.

(** X4.  The encoder pads, it does not validate: in every record of an
    alert the hour is the alert's hour text unchanged when that has two
    code units or more, with one ["0"] in front when it has one, and
    ["00"] when it is empty; the same for the minute. *)
Theorem expandAlert_clock_fields (alert : Alert) (r : Expanded.t) :
  In r (expandAlert alert []) ->
  let padded field :=
    match String.length field with
    | 0 => "00"
    | 1 => "0" ++ field
    | _ => field
    end in
  Expanded.hour r = padded (hour alert) /\ Expanded.minute r = padded (minute alert).
Proof.
  rewrite expandAlert_expansion, app_nil_l. unfold expansion.
  intros Hr. apply in_map_iff in Hr as [day [<- _]].
  cbn [Expanded.hour Expanded.minute]. now rewrite !padStart_2_0.
Qed.

Lemma expandAlert_clock_fields_witness :
  In (Expanded.mk "r" "1" "24" "00" "Walk")
    (expandAlert (mkAlert "Walk" "Reminder" false ["1"] "24" "") [])
  /\ Expanded.hour (Expanded.mk "r" "1" "24" "00" "Walk") = "24"
  /\ Expanded.minute (Expanded.mk "r" "1" "24" "00" "Walk") = "00".
Proof.
  assert (Hin : In (Expanded.mk "r" "1" "24" "00" "Walk")
                  (expandAlert (mkAlert "Walk" "Reminder" false ["1"] "24" "") []))
    by (vm_compute; left; reflexivity).
  split; [exact Hin|].
  exact (expandAlert_clock_fields _ _ Hin).
Defined.

Example formatAlertData_physical_lines_ex :
  List.length (splitOn linefeed (formatAlertData ex_data5)) = 6.
Proof. reflexivity. Qed.

(** ** From the form to the endpoint *)

Section Submission.

Variable parseInt : string -> option Z.
Variable trim : string -> string.

(** What holds when [handleSubmit] reaches the request. *)
Lemma handleSubmit_fetch_inv (form : Dashboard.Form) (formData : FormData)
    (response : NextResponse) :
  Dashboard.handleSubmit parseInt trim form = Dashboard.fetch_process_alert formData response ->
  passesChecks formData = true
  /\ formData
     = mkFormData (Dashboard.name form) (Dashboard.phone form) (Dashboard.email form)
         (Dashboard.medicalInfo form) (deviceId formData)
         (map Dashboard.toRouteAlert (Dashboard.alerts form))
  /\ parseInt (Dashboard.deviceId form) = Some (deviceId formData)
  /\ filter (Dashboard.invalidAlert trim) (Dashboard.alerts form) = []
  /\ response = POST formData.
Proof.
  intros H. pose proof (handleSubmit_fetch parseInt trim form formData response H) as [Hf Hr].
  revert H. unfold Dashboard.handleSubmit.
  destruct (_ || _) eqn:Hmissing; [discriminate|].
  destruct (parseInt (Dashboard.deviceId form)) as [deviceIdNum|]; [|discriminate].
  destruct ((deviceIdNum <? 1)%Z || (deviceIdNum >? 100)%Z) eqn:Hrange; [discriminate|].
  destruct (JS.length (Dashboard.alerts form) =? 0)%Z eqn:Hlen; [discriminate|].
  rewrite Hf. cbn. intros H. injection H as <- _.
  cbn [deviceId]. repeat split; try assumption.
  rewrite !orb_false_iff, !negb_false_iff in Hmissing.
  destruct Hmissing as [[[[Hn Hp] He] Hm] _].
  apply orb_false_iff in Hrange as [Hlo Hhi].
  apply Z.ltb_ge in Hlo. rewrite Z.gtb_ltb in Hhi. apply Z.ltb_ge in Hhi.
  unfold passesChecks. cbn [name phone email medicalInfo deviceId alerts].
  rewrite Hn, Hp, He, Hm. cbn [andb].
  unfold JS.truthy_number.
  replace (deviceIdNum =? 0)%Z with false by (symmetry; apply Z.eqb_neq; lia).
  apply Z.leb_le in Hlo, Hhi. rewrite Hlo, Hhi. cbn [negb andb].
  rewrite length_map. rewrite length_zero_iff in Hlen. now rewrite Hlen.
Qed.

(** The request that [handleSubmit] sends is answered with success. *)
Lemma handleSubmit_fetch_success (form : Dashboard.Form) (formData : FormData)
    (response : NextResponse) :
  Dashboard.handleSubmit parseInt trim form = Dashboard.fetch_process_alert formData response ->
  response = json_success (formatAlertData formData).
Proof.
  intros H. apply handleSubmit_fetch_inv in H as [Hchecks [_ [_ [_ ->]]]].
  now apply POST_passesChecks.
Qed.

(** A form with an invalid alert does not reach the request. *)
Lemma handleSubmit_invalid (form : Dashboard.Form) (alert : Dashboard.Alert) :
  In alert (Dashboard.alerts form) -> Dashboard.invalidAlert trim alert = true ->
  exists title description,
    Dashboard.handleSubmit parseInt trim form = Dashboard.toast_destructive title description.
Proof.
  intros Hin Hinvalid.
  pose proof (filter_invalidAlert trim _ _ Hin Hinvalid) as Hfilter.
  destruct (Dashboard.handleSubmit parseInt trim form) as [title description|formData response]
    eqn:E; [eauto|].
  apply handleSubmit_fetch in E as [E _]. rewrite E in Hfilter. discriminate.
Qed.

End Submission.

(** X5.  The checks of the form imply the checks of the endpoint: every
    request that [handleSubmit] sends carries the form's texts, the parsed
    device identifier and the form's alerts, and the endpoint answers it
    with success and the encoder's output, never with an error. *)
Theorem handleSubmit_request_accepted
    (parseInt : string -> option Z) (trim : string -> string)
    (form : Dashboard.Form) (formData : FormData) (response : NextResponse) :
  Dashboard.handleSubmit parseInt trim form = Dashboard.fetch_process_alert formData response ->
  response = json_success (formatAlertData formData)
  /\ name formData = Dashboard.name form /\ phone formData = Dashboard.phone form
  /\ email formData = Dashboard.email form
  /\ medicalInfo formData = Dashboard.medicalInfo form
  /\ parseInt (Dashboard.deviceId form) = Some (deviceId formData)
  /\ alerts formData = map Dashboard.toRouteAlert (Dashboard.alerts form).
Proof.
  intros H. split; [now apply (handleSubmit_fetch_success parseInt trim form)|].
  apply handleSubmit_fetch_inv in H as [_ [Hshape [Hid _]]].
  repeat split; try exact Hid; rewrite Hshape; reflexivity.
Qed.

Lemma handleSubmit_request_accepted_witness :
  Dashboard.handleSubmit readNumber asciiTrim ex_form2
  = Dashboard.fetch_process_alert ex_formData2 (POST ex_formData2)
  /\ POST ex_formData2 = json_success (formatAlertData ex_formData2).
Proof.
  assert (H : Dashboard.handleSubmit readNumber asciiTrim ex_form2
              = Dashboard.fetch_process_alert ex_formData2 (POST ex_formData2))
    by reflexivity.
  split; [exact H|].
  exact (proj1 (handleSubmit_request_accepted readNumber asciiTrim ex_form2 _ _ H)).
Defined.

Lemma expandedCount_at_least (schedule : list Alert) :
  forallb (fun alert => isEveryday alert || negb (List.length (selectedDays alert) =? 0)%nat)
    schedule = true ->
  List.length schedule <= expandedCount schedule.
Proof.
  unfold expandedCount, list_sum.
  induction schedule as [|alert schedule IH];
    cbn [forallb map fold_right List.length]; intros H.
  - lia.
  - apply andb_true_iff in H as [Ha Hs]. specialize (IH Hs).
    destruct (isEveryday alert); cbn [orb] in Ha.
    + lia.
    + apply negb_true_iff, Nat.eqb_neq in Ha. lia.
Qed.

Lemma invalidAlert_days (trim : string -> string) (alert : Dashboard.Alert) :
  Dashboard.invalidAlert trim alert = false ->
  Dashboard.isEveryday alert
  || negb (List.length (Dashboard.selectedDays alert) =? 0)%nat = true.
Proof.
  unfold Dashboard.invalidAlert. intros H. apply orb_false_iff in H as [_ H].
  destruct (Dashboard.isEveryday alert); [reflexivity|]. cbn in H |- *.
  rewrite length_zero_iff in H. now rewrite H.
Qed.

(** X6.  A payload produced through the form is never without records:
    the count on its first line is at least the number of alerts, which
    is at least one. *)
Theorem handleSubmit_payload_count
    (parseInt : string -> option Z) (trim : string -> string)
    (form : Dashboard.Form) (formData : FormData) (response : NextResponse) :
  Dashboard.handleSubmit parseInt trim form = Dashboard.fetch_process_alert formData response ->
  exists count,
    readNumber (firstLine (formatAlertData formData)) = Some (Z.of_nat count)
    /\ 1 <= List.length (Dashboard.alerts form) <= count.
Proof.
  intros H. apply handleSubmit_fetch_inv in H as [Hchecks [Hshape [_ [Hfilter _]]]].
  exists (expandedCount (alerts formData)). split.
  - rewrite firstLine_formatAlertData, expandedRecords_length. apply readNumber_toString.
  - assert (Halerts : alerts formData = map Dashboard.toRouteAlert (Dashboard.alerts form))
      by (rewrite Hshape; reflexivity).
    split.
    + apply passesChecks_iff in Hchecks as [_ [_ [_ [_ [_ Hne]]]]].
      rewrite Halerts in Hne. destruct (Dashboard.alerts form); [contradiction | cbn; lia].
    + rewrite <- (length_map Dashboard.toRouteAlert), <- Halerts.
      apply expandedCount_at_least. rewrite Halerts.
      apply forallb_forall. intros alert Hin.
      apply in_map_iff in Hin as [source [<- Hin]].
      cbn [isEveryday selectedDays Dashboard.toRouteAlert Dashboard.mkRouteAlert].
      apply (invalidAlert_days trim).
      destruct (Dashboard.invalidAlert trim source) eqn:E; [|reflexivity].
      assert (Hbad : In source (filter (Dashboard.invalidAlert trim) (Dashboard.alerts form)))
        by (apply filter_In; auto).
      rewrite Hfilter in Hbad. contradiction.
Qed.

Lemma handleSubmit_payload_count_witness :
  Dashboard.handleSubmit readNumber asciiTrim ex_form2
  = Dashboard.fetch_process_alert ex_formData2 (POST ex_formData2)
  /\ exists count,
       readNumber (firstLine (formatAlertData ex_formData2)) = Some (Z.of_nat count)
       /\ 1 <= List.length (Dashboard.alerts ex_form2) <= count.
Proof.
  assert (H : Dashboard.handleSubmit readNumber asciiTrim ex_form2
              = Dashboard.fetch_process_alert ex_formData2 (POST ex_formData2))
    by reflexivity.
  split; [exact H|].
  exact (handleSubmit_payload_count readNumber asciiTrim ex_form2 _ _ H).
Defined.

(** ** Saving a configuration *)

Section SavingFacts.

Variable JSON_parse : string -> Database.Outcome (list Database.StoredDevice).
Variable JSON_stringify : list Database.StoredDevice -> string.

Lemma onResponse_success (id timestamp : string) (formData : FormData) (output : string)
    (view : Saving.View) (old : list Database.StoredDevice) :
  Saving.storedDevices JSON_parse (Saving.localStorage view) = Database.Return old ->
  Saving.onResponse JSON_parse JSON_stringify id timestamp formData
    (Database.Return (json_success output)) view
  = Saving.mkView output
      (Some (JSON_stringify
               (Database.mkStoredDevice id timestamp (name formData) (phone formData)
                  (email formData) (medicalInfo formData) (deviceId formData)
                  (alerts formData) output :: old)))
      (Saving.toasts view
       ++ [Saving.mkToast "Success!" "Alert configuration has been processed and saved."
             false])%list.
Proof.
  unfold Saving.onResponse.
  cbn [Saving.setFormattedOutput Saving.localStorage]. intros ->. reflexivity.
Qed.

Lemma onResponse_store_throws (id timestamp : string) (formData : FormData) (output : string)
    (view : Saving.View) (error : string) :
  Saving.storedDevices JSON_parse (Saving.localStorage view) = Database.Throw error ->
  Saving.onResponse JSON_parse JSON_stringify id timestamp formData
    (Database.Return (json_success output)) view
  = Saving.mkView output (Saving.localStorage view)
      (Saving.toasts view
       ++ [Saving.mkToast "Error" "Failed to connect to the server." true])%list.
Proof.
  unfold Saving.onResponse.
  cbn [Saving.setFormattedOutput Saving.localStorage]. intros ->. reflexivity.
Qed.

End SavingFacts.

(** X7.  When the form passes its checks, the request reaches the route
    and the stored text (if any) parses, [handleSubmit] shows the payload,
    puts the new configuration in front of the stored list, writes the
    list back and shows the success toast.  The configuration it stores
    carries the payload, and the alert total that the database page
    computes for it is the count on the first line of that payload. *)
Theorem handleSubmit_saves
    (JSON_parse : string -> Database.Outcome (list Database.StoredDevice))
    (JSON_stringify : list Database.StoredDevice -> string)
    (parseInt : string -> option Z) (trim : string -> string) (id timestamp : string)
    (form : Dashboard.Form) (view : Saving.View)
    (formData : FormData) (response : NextResponse) (old : list Database.StoredDevice) :
  Dashboard.handleSubmit parseInt trim form = Dashboard.fetch_process_alert formData response ->
  Saving.storedDevices JSON_parse (Saving.localStorage view) = Database.Return old ->
  let saved :=
    Database.mkStoredDevice id timestamp (name formData) (phone formData) (email formData)
      (medicalInfo formData) (deviceId formData) (alerts formData)
      (formatAlertData formData) in
  Saving.handleSubmit JSON_parse JSON_stringify parseInt trim id timestamp true form view
  = Saving.mkView (formatAlertData formData) (Some (JSON_stringify (saved :: old)))
      (Saving.toasts view
       ++ [Saving.mkToast "Success!" "Alert configuration has been processed and saved."
             false])%list
  /\ readNumber (firstLine (Database.formattedOutput saved))
     = Some (Database.getTotalExpandedAlerts saved).
Proof.
  intros Hsent Hold saved. split.
  - unfold Saving.handleSubmit. rewrite Hsent.
    apply handleSubmit_fetch_success in Hsent as ->.
    now apply onResponse_success.
  - cbn [Database.formattedOutput saved].
    rewrite getTotalExpandedAlerts_expandedCount, firstLine_formatAlertData,
      expandedRecords_length.
    apply readNumber_toString.
Qed.

Lemma handleSubmit_saves_witness :
  Dashboard.handleSubmit readNumber asciiTrim ex_form2
  = Dashboard.fetch_process_alert ex_formData2 (POST ex_formData2)
  /\ Saving.handleSubmit parseEmptyArray stringifyEmptyArray readNumber asciiTrim
       "d1" "2025-01-01T00:00:00.000Z" true ex_form2 ex_view
     = Saving.mkView (formatAlertData ex_formData2) (Some "[...]")
         [Saving.mkToast "Success!" "Alert configuration has been processed and saved."
            false].
Proof.
  assert (H : Dashboard.handleSubmit readNumber asciiTrim ex_form2
              = Dashboard.fetch_process_alert ex_formData2 (POST ex_formData2))
    by reflexivity.
  split; [exact H|].
  exact (proj1 (handleSubmit_saves parseEmptyArray stringifyEmptyArray readNumber asciiTrim
                  "d1" "2025-01-01T00:00:00.000Z" ex_form2 ex_view _ _ [] H eq_refl)).
Defined.

(** X8.  Save, then open the database page: when the written text reads
    back as the list that was written, [loadDevices] shows the new
    configuration first, followed by the configurations stored before. *)
Theorem handleSubmit_then_loadDevices
    (JSON_parse : string -> Database.Outcome (list Database.StoredDevice))
    (JSON_stringify : list Database.StoredDevice -> string)
    (parseInt : string -> option Z) (trim : string -> string) (id timestamp : string)
    (form : Dashboard.Form) (view : Saving.View)
    (formData : FormData) (response : NextResponse) (old : list Database.StoredDevice) :
  Dashboard.handleSubmit parseInt trim form = Dashboard.fetch_process_alert formData response ->
  Saving.storedDevices JSON_parse (Saving.localStorage view) = Database.Return old ->
  let saved :=
    Database.mkStoredDevice id timestamp (name formData) (phone formData) (email formData)
      (medicalInfo formData) (deviceId formData) (alerts formData)
      (formatAlertData formData) in
  JS.truthy_string (JSON_stringify (saved :: old)) = true ->
  JSON_parse (JSON_stringify (saved :: old)) = Database.Return (saved :: old) ->
  exists page,
    Database.loadDevices JSON_parse
      (Database.mount
         (Saving.localStorage
            (Saving.handleSubmit JSON_parse JSON_stringify parseInt trim id timestamp true
               form view)))
    = Database.Return page
    /\ Database.devices page = saved :: old
    /\ Database.console page = [].
Proof.
  intros Hsent Hold saved Htruthy Hround.
  unfold Saving.handleSubmit. rewrite Hsent.
  apply handleSubmit_fetch_success in Hsent as ->.
  rewrite (onResponse_success JSON_parse JSON_stringify _ _ _ _ _ old Hold).
  cbn [Saving.localStorage]. fold saved.
  unfold Database.loadDevices, Database.mount. cbn [Database.localStorage].
  rewrite Htruthy, Hround. cbn [Database.bind Database.try_catch].
  eexists. split; [reflexivity|]. split; reflexivity.
Qed.

Lemma handleSubmit_then_loadDevices_witness :
  Dashboard.handleSubmit readNumber asciiTrim ex_form2
  = Dashboard.fetch_process_alert ex_formData2 (POST ex_formData2)
  /\ exists page,
       Database.loadDevices (parseWritten [ex_saved])
         (Database.mount
            (Saving.localStorage
               (Saving.handleSubmit (parseWritten [ex_saved]) stringifyEmptyArray readNumber
                  asciiTrim "d1" "2025-01-01T00:00:00.000Z" true ex_form2 ex_view)))
       = Database.Return page
       /\ Database.devices page = [ex_saved]
       /\ Database.console page = [].
Proof.
  assert (H : Dashboard.handleSubmit readNumber asciiTrim ex_form2
              = Dashboard.fetch_process_alert ex_formData2 (POST ex_formData2))
    by reflexivity.
  split; [exact H|].
  exact (handleSubmit_then_loadDevices (parseWritten [ex_saved]) stringifyEmptyArray
           readNumber asciiTrim "d1" "2025-01-01T00:00:00.000Z" ex_form2 ex_view _ _ []
           H eq_refl eq_refl eq_refl).
Defined.

(** X9.  When the stored text does not parse, a successful answer still
    sets the payload shown, but nothing is written to the store and the
    toast reports a failure to connect to the server. *)
Theorem handleSubmit_store_malformed
    (JSON_parse : string -> Database.Outcome (list Database.StoredDevice))
    (JSON_stringify : list Database.StoredDevice -> string)
    (parseInt : string -> option Z) (trim : string -> string) (id timestamp : string)
    (form : Dashboard.Form) (view : Saving.View)
    (formData : FormData) (response : NextResponse) (text error : string) :
  Dashboard.handleSubmit parseInt trim form = Dashboard.fetch_process_alert formData response ->
  Saving.localStorage view = Some text ->
  JS.truthy_string text = true ->
  JSON_parse text = Database.Throw error ->
  Saving.handleSubmit JSON_parse JSON_stringify parseInt trim id timestamp true form view
  = Saving.mkView (formatAlertData formData) (Some text)
      (Saving.toasts view
       ++ [Saving.mkToast "Error" "Failed to connect to the server." true])%list.
Proof.
  intros Hsent Hstored Htruthy Hthrow.
  unfold Saving.handleSubmit. rewrite Hsent.
  apply handleSubmit_fetch_success in Hsent as ->.
  rewrite (onResponse_store_throws JSON_parse JSON_stringify _ _ _ _ _ error).
  - now rewrite Hstored.
  - unfold Saving.storedDevices. now rewrite Hstored, Htruthy.
Qed.

Lemma handleSubmit_store_malformed_witness :
  Dashboard.handleSubmit readNumber asciiTrim ex_form2
  = Dashboard.fetch_process_alert ex_formData2 (POST ex_formData2)
  /\ Saving.handleSubmit parseEmptyArray stringifyEmptyArray readNumber asciiTrim
       "d1" "2025-01-01T00:00:00.000Z" true ex_form2 ex_view_malformed
     = Saving.mkView (formatAlertData ex_formData2) (Some "[{oops")
         [Saving.mkToast "Error" "Failed to connect to the server." true].
Proof.
  assert (H : Dashboard.handleSubmit readNumber asciiTrim ex_form2
              = Dashboard.fetch_process_alert ex_formData2 (POST ex_formData2))
    by reflexivity.
  split; [exact H|].
  exact (handleSubmit_store_malformed parseEmptyArray stringifyEmptyArray readNumber asciiTrim
           "d1" "2025-01-01T00:00:00.000Z" ex_form2 ex_view_malformed _ _ "[{oops"
           "SyntaxError: Unexpected token" H eq_refl eq_refl eq_refl).
Defined.

(** X10.  Every run of [handleSubmit] shows exactly one toast.  When that
    toast is destructive the store is left as it was; when the run did
    not get an answer from the route (a rejected form, or no connection)
    the payload shown is left as it was too. *)
Theorem handleSubmit_one_toast
    (JSON_parse : string -> Database.Outcome (list Database.StoredDevice))
    (JSON_stringify : list Database.StoredDevice -> string)
    (parseInt : string -> option Z) (trim : string -> string) (id timestamp : string)
    (online : bool) (form : Dashboard.Form) (view : Saving.View) :
  let after :=
    Saving.handleSubmit JSON_parse JSON_stringify parseInt trim id timestamp online form view in
  exists t,
    Saving.toasts after = (Saving.toasts view ++ [t])%list
    /\ (Saving.destructive t = true -> Saving.localStorage after = Saving.localStorage view)
    /\ ((online = false
         \/ exists title description,
              Dashboard.handleSubmit parseInt trim form
              = Dashboard.toast_destructive title description) ->
        Saving.destructive t = true
        /\ Saving.formattedOutput after = Saving.formattedOutput view).
Proof.
  unfold Saving.handleSubmit.
  destruct (Dashboard.handleSubmit parseInt trim form) as [title description|formData response]
    eqn:Hsubmit.
  - eexists. split; [reflexivity|]. split; [reflexivity|]. intros _. split; reflexivity.
  - pose proof (handleSubmit_fetch_success _ _ _ _ _ Hsubmit) as ->.
    destruct online.
    + destruct (Saving.storedDevices JSON_parse (Saving.localStorage view)) as [old|error] eqn:Hold.
      * rewrite (onResponse_success JSON_parse JSON_stringify _ _ _ _ _ old Hold).
        eexists. split; [reflexivity|]. split; [discriminate|].
        intros [Hoff | [title [description Hrej]]]; discriminate.
      * rewrite (onResponse_store_throws JSON_parse JSON_stringify _ _ _ _ _ error Hold).
        eexists. split; [reflexivity|]. split; [reflexivity|].
        intros [Hoff | [title [description Hrej]]]; discriminate.
    + eexists. split; [reflexivity|]. split; [reflexivity|]. intros _. split; reflexivity.
Qed.

Lemma handleSubmit_one_toast_witness :
  exists t,
    Saving.toasts
      (Saving.handleSubmit parseEmptyArray stringifyEmptyArray readNumber asciiTrim
         "d1" "2025-01-01T00:00:00.000Z" false ex_form2 ex_view)
    = [t]
    /\ Saving.destructive t = true.
Proof.
  destruct (handleSubmit_one_toast parseEmptyArray stringifyEmptyArray readNumber asciiTrim
              "d1" "2025-01-01T00:00:00.000Z" false ex_form2 ex_view)
    as [t [Htoasts [_ Hrest]]].
  exists t. split; [exact Htoasts|]. exact (proj1 (Hrest (or_introl eq_refl))).
Defined.

(** ** Editing the alerts *)

Lemma includes_filter (days : list string) (day other : string) :
  Editor.includes (filter (fun d => negb (String.eqb d day)) days) other
  = Editor.includes days other && negb (String.eqb other day).
Proof.
  unfold Editor.includes. induction days as [|d days IH]; cbn [filter existsb]; [reflexivity|].
  destruct (String.eqb_spec d day) as [-> | Hd]; cbn [negb existsb]; rewrite IH.
  - now destruct (String.eqb other day), (existsb (String.eqb other) days).
  - destruct (String.eqb_spec other d) as [-> | Ho].
    + apply String.eqb_neq in Hd. rewrite Hd. reflexivity.
    + now destruct (String.eqb other day), (existsb (String.eqb other) days).
Qed.

Lemma includes_push (days : list string) (day other : string) :
  Editor.includes (days ++ [day])%list other
  = Editor.includes days other || String.eqb other day.
Proof.
  unfold Editor.includes. rewrite existsb_app. cbn [existsb]. now rewrite orb_false_r.
Qed.

Lemma filter_absent (days : list string) (day : string) :
  Editor.includes days day = false ->
  filter (fun d => negb (String.eqb d day)) days = days.
Proof.
  unfold Editor.includes. induction days as [|d days IH]; cbn [filter existsb]; intros H.
  - reflexivity.
  - apply orb_false_iff in H as [Hd Hdays]. rewrite String.eqb_sym in Hd.
    rewrite Hd. cbn [negb]. now rewrite IH.
Qed.

Lemma distinct_filter (p : string -> bool) (days : list string) :
  distinct days = true -> distinct (filter p days) = true.
Proof.
  induction days as [|d days IH]; cbn [filter distinct]; intros H; [reflexivity|].
  apply andb_true_iff in H as [Hd Hdays]. destruct (p d); [|now apply IH].
  cbn [distinct]. rewrite (IH Hdays), andb_true_r.
  apply negb_true_iff in Hd. apply negb_true_iff.
  destruct (existsb (String.eqb d) (filter p days)) eqn:E; [|reflexivity].
  apply existsb_exists in E as [x [Hx Heq]]. apply filter_In in Hx as [Hx _].
  assert (Hex : existsb (String.eqb d) days = true) by (apply existsb_exists; eauto).
  congruence.
Qed.

Lemma distinct_push (days : list string) (day : string) :
  distinct days = true -> Editor.includes days day = false ->
  distinct (days ++ [day])%list = true.
Proof.
  unfold Editor.includes.
  induction days as [|d days IH]; cbn [Datatypes.app distinct existsb]; intros H Hday.
  - reflexivity.
  - apply andb_true_iff in H as [Hd Hdays]. apply orb_false_iff in Hday as [Hne Hday].
    rewrite (IH Hdays Hday), andb_true_r, existsb_app. cbn [existsb].
    apply negb_true_iff in Hd. rewrite Hd, orb_false_r. cbn [orb].
    rewrite String.eqb_sym. now rewrite Hne.
Qed.

Lemma forallb_filter {A : Type} (P p : A -> bool) (l : list A) :
  forallb P l = true -> forallb P (filter p l) = true.
Proof.
  rewrite !forallb_forall. intros H x Hx. apply filter_In in Hx as [Hx _]. auto.
Qed.

Lemma forallb_map_preserved {A : Type} (P : A -> bool) (f : A -> A) (l : list A) :
  (forall x, P x = true -> P (f x) = true) ->
  forallb P l = true -> forallb P (map f l) = true.
Proof.
  intros Hf. rewrite !forallb_forall. intros H y Hy.
  apply in_map_iff in Hy as [x [<- Hx]]. auto.
Qed.

Lemma alert_eta (alert : Dashboard.Alert) :
  Dashboard.mkAlert (Dashboard.id alert) (Dashboard.message alert) (Dashboard.type alert)
    (Dashboard.isEveryday alert) (Dashboard.selectedDays alert) (Dashboard.hour alert)
    (Dashboard.minute alert) = alert.
Proof. now destruct alert. Qed.

(** X11.  [toggleDay] flips the membership of [day] in the selected days
    of every alert with the given id and of nothing else: the other days
    of those alerts, their other fields, and every other alert stay as they
    were, position by position. *)
Theorem toggleDay_flips (alertId day : string) (alerts : list Dashboard.Alert)
    (i : nat) (alert : Dashboard.Alert) :
  nth_error alerts i = Some alert ->
  exists toggled,
    nth_error (Editor.toggleDay alertId day alerts) i = Some toggled
    /\ (Dashboard.id alert <> alertId -> toggled = alert)
    /\ (Dashboard.id alert = alertId ->
        Editor.includes (Dashboard.selectedDays toggled) day
        = negb (Editor.includes (Dashboard.selectedDays alert) day)
        /\ (forall other, other <> day ->
              Editor.includes (Dashboard.selectedDays toggled) other
              = Editor.includes (Dashboard.selectedDays alert) other)
        /\ Editor.spread toggled (Editor.field_selectedDays (Dashboard.selectedDays alert))
           = alert).
Proof.
  intros Hnth. unfold Editor.toggleDay. rewrite nth_error_map, Hnth. cbn [option_map].
  eexists. split; [reflexivity|].
  destruct (String.eqb_spec (Dashboard.id alert) alertId) as [Hid | Hid].
  - split; [contradiction|]. intros _.
    cbn [Editor.spread Dashboard.selectedDays Dashboard.id Dashboard.message Dashboard.type
           Dashboard.isEveryday Dashboard.hour Dashboard.minute].
    split; [|split].
    + destruct (Editor.includes (Dashboard.selectedDays alert) day) eqn:E.
      * rewrite includes_filter, String.eqb_refl. now rewrite andb_false_r.
      * rewrite includes_push, E, String.eqb_refl. reflexivity.
    + intros other Hother. apply String.eqb_neq in Hother.
      destruct (Editor.includes (Dashboard.selectedDays alert) day).
      * rewrite includes_filter, Hother. now rewrite andb_true_r.
      * rewrite includes_push, Hother. now rewrite orb_false_r.
    + apply alert_eta.
  - split; [reflexivity | contradiction].
Qed.

Lemma toggleDay_flips_witness :
  nth_error (Editor.session [Editor.click_add "p0q1"]) 0
  = Some (Dashboard.mkAlert "p0q1" "" "Reminder" false [] "09" "00")
  /\ exists toggled,
       nth_error (Editor.toggleDay "p0q1" "3" (Editor.session [Editor.click_add "p0q1"])) 0
       = Some toggled
       /\ Editor.includes (Dashboard.selectedDays toggled) "3" = true.
Proof.
  split; [reflexivity|].
  destruct (toggleDay_flips "p0q1" "3" (Editor.session [Editor.click_add "p0q1"]) 0 _ eq_refl)
    as [toggled [Hnth [_ Hflip]]].
  exists toggled. split; [exact Hnth|]. exact (proj1 (Hflip eq_refl)).
Defined.

(** X12.  Clicking twice a day that was not selected restores the alerts
    exactly. *)
Theorem toggleDay_twice (alertId day : string) (alerts : list Dashboard.Alert) :
  (forall alert,
      In alert alerts -> Dashboard.id alert = alertId ->
      Editor.includes (Dashboard.selectedDays alert) day = false) ->
  Editor.toggleDay alertId day (Editor.toggleDay alertId day alerts) = alerts.
Proof.
  intros Hfresh. unfold Editor.toggleDay. rewrite map_map.
  rewrite <- (map_id alerts) at 2. apply map_ext_in. intros alert Hin.
  destruct (String.eqb_spec (Dashboard.id alert) alertId) as [Hid | Hid].
  - cbn [Editor.spread Dashboard.id Dashboard.selectedDays Dashboard.message Dashboard.type
           Dashboard.isEveryday Dashboard.hour Dashboard.minute].
    rewrite Hid, String.eqb_refl. rewrite (Hfresh alert Hin Hid).
    rewrite includes_push, String.eqb_refl, orb_true_r.
    rewrite filter_app. cbn [filter]. rewrite String.eqb_refl. cbn [negb].
    rewrite app_nil_r, (filter_absent _ _ (Hfresh alert Hin Hid)).
    rewrite <- Hid. apply alert_eta.
  - apply String.eqb_neq in Hid. now rewrite Hid.
Qed.

Lemma toggleDay_twice_witness :
  Editor.toggleDay "p0q1" "3"
    (Editor.toggleDay "p0q1" "3" (Editor.session [Editor.click_add "p0q1"]))
  = Editor.session [Editor.click_add "p0q1"].
Proof.
  apply toggleDay_twice. intros alert [<- | []] _. reflexivity.
Defined.

Lemma rendered_weekday (id : string) (day : string * string) :
  Editor.rendered (Editor.click_day id day) = true -> isWeekdayCode (fst day) = true.
Proof.
  cbn [Editor.rendered]. intros H. apply existsb_exists in H as [entry [Hin Heq]].
  apply andb_true_iff in Heq as [Heq _]. apply String.eqb_eq in Heq. rewrite <- Heq.
  unfold Editor.daysOfWeek in Hin. cbn [In] in Hin.
  repeat (destruct Hin as [<- | Hin]; [reflexivity|]). contradiction.
Qed.

Lemma toggleDay_distinctWeekdays (alertId day : string) (alerts : list Dashboard.Alert) :
  isWeekdayCode day = true ->
  forallb distinctWeekdays alerts = true ->
  forallb distinctWeekdays (Editor.toggleDay alertId day alerts) = true.
Proof.
  intros Hday. unfold Editor.toggleDay. apply forallb_map_preserved. intros alert Hok.
  destruct (String.eqb (Dashboard.id alert) alertId); [|exact Hok].
  unfold distinctWeekdays in *. cbn [Editor.spread Dashboard.selectedDays].
  apply andb_true_iff in Hok as [Hdistinct Hcodes].
  destruct (Editor.includes (Dashboard.selectedDays alert) day) eqn:E.
  - now rewrite distinct_filter, forallb_filter.
  - rewrite distinct_push, forallb_app by assumption. cbn [forallb].
    now rewrite Hcodes, Hday.
Qed.

Lemma updateAlert_distinctWeekdays (id : string) (update : Editor.FieldValue)
    (alerts : list Dashboard.Alert) :
  (forall days, update <> Editor.field_selectedDays days) ->
  forallb distinctWeekdays alerts = true ->
  forallb distinctWeekdays (Editor.updateAlert id update alerts) = true.
Proof.
  intros Hfield. unfold Editor.updateAlert. apply forallb_map_preserved. intros alert Hok.
  destruct (String.eqb (Dashboard.id alert) id); [|exact Hok].
  destruct update; try exact Hok. now contradiction (Hfield value).
Qed.

Lemma handle_distinctWeekdays (alerts : list Dashboard.Alert) (event : Editor.Event) :
  Editor.rendered event = true ->
  forallb distinctWeekdays alerts = true ->
  forallb distinctWeekdays (Editor.handle alerts event) = true.
Proof.
  intros Hrendered Hok. destruct event; cbn [Editor.handle].
  - unfold Editor.addAlert. rewrite forallb_app, Hok. reflexivity.
  - now apply forallb_filter.
  - apply updateAlert_distinctWeekdays; [discriminate | assumption].
  - apply updateAlert_distinctWeekdays; [discriminate | assumption].
  - apply updateAlert_distinctWeekdays; [discriminate | assumption].
  - apply updateAlert_distinctWeekdays; [discriminate | assumption].
  - apply toggleDay_distinctWeekdays; [|assumption].
    now apply (rendered_weekday id).
  - unfold Editor.toggleEveryday. apply forallb_map_preserved; [|assumption].
    intros alert Halert. destruct (String.eqb (Dashboard.id alert) id); [|exact Halert].
    destruct checked; [reflexivity | exact Halert].
Qed.

(** X13.  Whatever the user does with the rendered form, starting from
    the empty list, the selected days of every alert are weekday codes
    ["0"] to ["6"] without duplicates. *)
Theorem session_distinctWeekdays (events : list Editor.Event) :
  forallb Editor.rendered events = true ->
  forallb distinctWeekdays (Editor.session events) = true.
Proof.
  unfold Editor.session.
  assert (G : forall alerts,
             forallb distinctWeekdays alerts = true ->
             forallb Editor.rendered events = true ->
             forallb distinctWeekdays (fold_left Editor.handle events alerts) = true).
  { induction events as [|event events IH]; intros alerts Hok Hrendered.
    - exact Hok.
    - cbn [forallb] in Hrendered. apply andb_true_iff in Hrendered as [He Hes].
      cbn [fold_left]. apply IH; [|assumption]. now apply handle_distinctWeekdays. }
  now apply G.
Qed.

Lemma session_distinctWeekdays_witness :
  forallb Editor.rendered ex_events = true
  /\ forallb distinctWeekdays (Editor.session ex_events) = true.
Proof.
  split; [reflexivity|].
  exact (session_distinctWeekdays ex_events eq_refl).
Defined.

Example session_ex_events :
  Editor.session ex_events
  = [Dashboard.mkAlert "p0q1" "Walk" "Reminder" false ["1"; "3"] "09" "00"].
Proof. reflexivity. Qed.

(** X14.  Ticking and then unticking "Everyday" loses the days selected
    before: every alert with that id ends not everyday and without days,
    so a form holding such an alert is rejected on submit. *)
Theorem toggleEveryday_loses_days
    (parseInt : string -> option Z) (trim : string -> string)
    (alertId : string) (form : Dashboard.Form) :
  (exists alert, In alert (Dashboard.alerts form) /\ Dashboard.id alert = alertId) ->
  let unticked :=
    Editor.toggleEveryday alertId false
      (Editor.toggleEveryday alertId true (Dashboard.alerts form)) in
  (forall alert,
      In alert unticked -> Dashboard.id alert = alertId ->
      Dashboard.isEveryday alert = false /\ Dashboard.selectedDays alert = [])
  /\ exists title description,
       Dashboard.handleSubmit parseInt trim (withFormAlerts unticked form)
       = Dashboard.toast_destructive title description.
Proof.
  intros [alert [Hin Hid]] unticked.
  assert (Hall : forall a, In a unticked -> Dashboard.id a = alertId ->
                           Dashboard.isEveryday a = false /\ Dashboard.selectedDays a = []).
  { intros a Ha Haid. unfold unticked, Editor.toggleEveryday in Ha. rewrite map_map in Ha.
    apply in_map_iff in Ha as [source [<- _]].
    destruct (String.eqb_spec (Dashboard.id source) alertId) as [Hs | Hs].
    - cbn [Dashboard.id]. rewrite Hs, String.eqb_refl. split; reflexivity.
    - apply String.eqb_neq in Hs. rewrite Hs in Haid |- *.
      apply String.eqb_neq in Hs. contradiction. }
  split; [exact Hall|].
  set (result := Dashboard.mkAlert (Dashboard.id alert) (Dashboard.message alert)
                   (Dashboard.type alert) false [] (Dashboard.hour alert)
                   (Dashboard.minute alert)).
  assert (Hres : In result unticked).
  { unfold unticked, Editor.toggleEveryday. rewrite map_map. apply in_map_iff.
    exists alert. split; [|exact Hin].
    rewrite <- Hid, String.eqb_refl. cbn [Dashboard.id]. rewrite String.eqb_refl.
    reflexivity. }
  apply (handleSubmit_invalid parseInt trim (withFormAlerts unticked form) result).
  - exact Hres.
  - unfold Dashboard.invalidAlert. cbn. apply orb_true_r.
Qed.

Lemma toggleEveryday_loses_days_witness :
  (exists alert, In alert (Dashboard.alerts ex_form2) /\ Dashboard.id alert = "p0q1")
  /\ exists title description,
       Dashboard.handleSubmit readNumber asciiTrim
         (withFormAlerts
            (Editor.toggleEveryday "p0q1" false
               (Editor.toggleEveryday "p0q1" true (Dashboard.alerts ex_form2)))
            ex_form2)
       = Dashboard.toast_destructive title description.
Proof.
  assert (H : exists alert, In alert (Dashboard.alerts ex_form2) /\ Dashboard.id alert = "p0q1").
  { eexists. split; [left; reflexivity | reflexivity]. }
  split; [exact H|].
  exact (proj2 (toggleEveryday_loses_days readNumber asciiTrim "p0q1" ex_form2 H)).
Defined.

(** X15.  A freshly added alert has an empty message and no day: until it
    is edited or removed, the form is rejected on submit. *)
Theorem addAlert_blocks_submit
    (parseInt : string -> option Z) (trim : string -> string)
    (id : string) (form : Dashboard.Form) :
  trim "" = "" ->
  exists title description,
    Dashboard.handleSubmit parseInt trim
      (withFormAlerts (Editor.addAlert id (Dashboard.alerts form)) form)
    = Dashboard.toast_destructive title description.
Proof.
  intros Htrim.
  apply (handleSubmit_invalid parseInt trim _
           (Dashboard.mkAlert id "" "Reminder" false [] "09" "00")).
  - cbn [withFormAlerts Dashboard.alerts]. unfold Editor.addAlert.
    apply in_or_app. right. left. reflexivity.
  - unfold Dashboard.invalidAlert. cbn [Dashboard.message]. now rewrite Htrim.
Qed.

Lemma addAlert_blocks_submit_witness :
  asciiTrim "" = ""
  /\ exists title description,
       Dashboard.handleSubmit readNumber asciiTrim
         (withFormAlerts (Editor.addAlert "z9" (Dashboard.alerts ex_form2)) ex_form2)
       = Dashboard.toast_destructive title description.
Proof.
  split; [reflexivity|].
  exact (addAlert_blocks_submit readNumber asciiTrim "z9" ex_form2 eq_refl).
Defined.

(** X16.  [removeAlert] removes by id, not by position: removing the
    alert just added also removes every older alert with the same id, and
    gives back the list as it was exactly when the id was new. *)
Theorem removeAlert_addAlert (id : string) (alerts : list Dashboard.Alert) :
  Editor.removeAlert id (Editor.addAlert id alerts) = Editor.removeAlert id alerts
  /\ ((forall alert, In alert alerts -> Dashboard.id alert <> id) ->
      Editor.removeAlert id (Editor.addAlert id alerts) = alerts)
  /\ forall alert, In alert (Editor.removeAlert id alerts) -> Dashboard.id alert <> id.
Proof.
  assert (E : Editor.removeAlert id (Editor.addAlert id alerts) = Editor.removeAlert id alerts).
  { unfold Editor.removeAlert, Editor.addAlert. rewrite filter_app. cbn [filter Dashboard.id].
    rewrite String.eqb_refl. cbn [negb]. apply app_nil_r. }
  split; [exact E|]. split.
  - intros Hfresh. rewrite E. unfold Editor.removeAlert.
    induction alerts as [|alert alerts IH]; cbn [filter]; [reflexivity|].
    assert (Hne : Dashboard.id alert <> id) by (apply Hfresh; left; reflexivity).
    apply String.eqb_neq in Hne. rewrite Hne. cbn [negb]. f_equal.
    apply IH.
    + unfold Editor.removeAlert, Editor.addAlert. rewrite filter_app. cbn [filter Dashboard.id].
      rewrite String.eqb_refl. cbn [negb]. apply app_nil_r.
    + intros a Ha. apply Hfresh. now right.
  - intros alert Hin. unfold Editor.removeAlert in Hin. apply filter_In in Hin as [_ Hin].
    apply negb_true_iff, String.eqb_neq in Hin. exact Hin.
Qed.

Lemma removeAlert_addAlert_witness :
  (forall alert, In alert (Dashboard.alerts ex_form2) -> Dashboard.id alert <> "z9")
  /\ Editor.removeAlert "z9" (Editor.addAlert "z9" (Dashboard.alerts ex_form2))
     = Dashboard.alerts ex_form2.
Proof.
  assert (H : forall alert, In alert (Dashboard.alerts ex_form2) -> Dashboard.id alert <> "z9").
  { intros alert [<- | []]. discriminate. }
  split; [exact H|].
  exact (proj1 (proj2 (removeAlert_addAlert "z9" (Dashboard.alerts ex_form2))) H).
Defined.

(** ** The stored list on the database page *)

(** X17.  [deleteDevice] keeps, in their order, exactly the devices with
    another id, and writes the list it shows to the store; when that text
    reads back as the list written, loading again shows the same page. *)
Theorem deleteDevice_in_sync
    (JSON_parse : string -> Database.Outcome (list Database.StoredDevice))
    (JSON_stringify : list Database.StoredDevice -> string)
    (id : string) (page : Database.Page) :
  let after := fst (Listing.deleteDevice JSON_stringify id page) in
  (forall device,
      In device (Database.devices after)
      <-> In device (Database.devices page) /\ Database.id device <> id)
  /\ Database.localStorage after = Some (JSON_stringify (Database.devices after))
  /\ (JS.truthy_string (JSON_stringify (Database.devices after)) = true ->
      JSON_parse (JSON_stringify (Database.devices after))
      = Database.Return (Database.devices after) ->
      Database.loadDevices JSON_parse after = Database.Return after).
Proof.
  intros after. split; [|split].
  - intros device. unfold after, Listing.deleteDevice. cbn [fst Database.devices].
    rewrite filter_In, negb_true_iff, String.eqb_neq. reflexivity.
  - reflexivity.
  - unfold after, Listing.deleteDevice. cbn [fst Database.devices].
    intros Htruthy Hround. unfold Database.loadDevices. cbn [Database.localStorage].
    rewrite Htruthy, Hround. reflexivity.
Qed.

Lemma deleteDevice_in_sync_witness :
  JS.truthy_string (stringifyEmptyArray []) = true
  /\ Database.loadDevices parseEmptyArray (fst (Listing.deleteDevice stringifyEmptyArray "d1" ex_page))
     = Database.Return (Database.mkPage (Some "[]") [] []).
Proof.
  split; [reflexivity|].
  exact (proj2 (proj2 (deleteDevice_in_sync parseEmptyArray stringifyEmptyArray "d1" ex_page))
           eq_refl eq_refl).
Defined.

(** X18.  Deleting an id that no shown device has leaves the list shown
    as it was, and deleting the same id a second time changes nothing
    more. *)
Theorem deleteDevice_again (JSON_stringify : list Database.StoredDevice -> string)
    (id : string) (page : Database.Page) :
  ((forall device, In device (Database.devices page) -> Database.id device <> id) ->
   Database.devices (fst (Listing.deleteDevice JSON_stringify id page))
   = Database.devices page)
  /\ fst (Listing.deleteDevice JSON_stringify id
            (fst (Listing.deleteDevice JSON_stringify id page)))
     = fst (Listing.deleteDevice JSON_stringify id page).
Proof.
  assert (Hkeep : forall devices,
             (forall device, In device devices -> Database.id device <> id) ->
             filter (fun device => negb (String.eqb (Database.id device) id)) devices
             = devices).
  { induction devices as [|device devices IH]; intros Hfresh; cbn [filter]; [reflexivity|].
    assert (Hne : Database.id device <> id) by (apply Hfresh; left; reflexivity).
    apply String.eqb_neq in Hne. rewrite Hne. cbn [negb]. f_equal.
    apply IH. intros d Hd. apply Hfresh. now right. }
  split.
  - intros Hfresh. unfold Listing.deleteDevice. cbn [fst Database.devices]. now apply Hkeep.
  - unfold Listing.deleteDevice. cbn [fst Database.devices Database.console].
    rewrite Hkeep; [reflexivity|].
    intros device Hin. apply filter_In in Hin as [_ Hin].
    now apply negb_true_iff, String.eqb_neq in Hin.
Qed.

Lemma deleteDevice_again_witness :
  (forall device, In device (Database.devices ex_page) -> Database.id device <> "d2")
  /\ Database.devices (fst (Listing.deleteDevice stringifyEmptyArray "d2" ex_page))
     = Database.devices ex_page.
Proof.
  assert (H : forall device, In device (Database.devices ex_page) -> Database.id device <> "d2").
  { intros device [<- | []]. discriminate. }
  split; [exact H|].
  exact (proj1 (deleteDevice_again stringifyEmptyArray "d2" ex_page) H).
Defined.

(** X19.  After a confirmed [clearAllDevices] the list is empty and the
    store holds nothing, so loading again shows the empty list without
    parsing or logging anything; a declined one changes nothing and shows
    no toast. *)
Theorem clearAllDevices_then_loadDevices
    (JSON_parse : string -> Database.Outcome (list Database.StoredDevice))
    (page : Database.Page) :
  Database.loadDevices JSON_parse (fst (Listing.clearAllDevices true page))
  = Database.Return (Database.mkPage None [] (Database.console page))
  /\ Listing.clearAllDevices false page = (page, None).
Proof. split; reflexivity. Qed.

(** X20.  The two pages agree on the names of the days: for every entry
    of the dashboard's [daysOfWeek], [getDayLabel] of its value is its
    label, as soon as [parseInt] reads the numerals 0 to 6. *)
Theorem getDayLabel_daysOfWeek (parseInt : string -> option Z) (entry : string * string) :
  (forall n, (0 <= n <= 6)%Z -> parseInt (JS.toString n) = Some n) ->
  In entry Editor.daysOfWeek ->
  Listing.getDayLabel parseInt (fst entry) = snd entry.
Proof.
  intros Hparse Hin. unfold Editor.daysOfWeek in Hin. cbn [In] in Hin.
  unfold Listing.getDayLabel.
  destruct Hin as [<- | [<- | [<- | [<- | [<- | [<- | [<- | []]]]]]]]; cbn [fst snd].
  - change "0" with (JS.toString 0). rewrite Hparse by lia. reflexivity.
  - change "1" with (JS.toString 1). rewrite Hparse by lia. reflexivity.
  - change "2" with (JS.toString 2). rewrite Hparse by lia. reflexivity.
  - change "3" with (JS.toString 3). rewrite Hparse by lia. reflexivity.
  - change "4" with (JS.toString 4). rewrite Hparse by lia. reflexivity.
  - change "5" with (JS.toString 5). rewrite Hparse by lia. reflexivity.
  - change "6" with (JS.toString 6). rewrite Hparse by lia. reflexivity.
Qed.

Lemma getDayLabel_daysOfWeek_witness :
  (forall n, (0 <= n <= 6)%Z -> readNumber (JS.toString n) = Some n)
  /\ In ("3", "Wed") Editor.daysOfWeek
  /\ Listing.getDayLabel readNumber "3" = "Wed".
Proof.
  assert (Hparse : forall n, (0 <= n <= 6)%Z -> readNumber (JS.toString n) = Some n)
    by (intros n _; apply readNumber_toString).
  assert (Hin : In ("3", "Wed") Editor.daysOfWeek) by (cbn; auto).
  split; [exact Hparse|]. split; [exact Hin|].
  exact (getDayLabel_daysOfWeek readNumber ("3", "Wed") Hparse Hin).
Defined.

(** X21.  [getDayLabel] falls back to the text it was given when that
    text is not a number or its number is outside 0 to 6. *)
Theorem getDayLabel_fallback (parseInt : string -> option Z) (day : string) :
  (parseInt day = None \/ exists n, parseInt day = Some n /\ (n < 0 \/ 6 < n)%Z) ->
  Listing.getDayLabel parseInt day = day.
Proof.
  unfold Listing.getDayLabel, Listing.at_index.
  intros [-> | [n [-> Hout]]]; [reflexivity|].
  destruct (n <? 0)%Z eqn:Hneg; [reflexivity|].
  apply Z.ltb_ge in Hneg.
  destruct Hout as [Hlow | Hhigh]; [lia|].
  assert (Hn : 7 <= Z.to_nat n) by lia.
  destruct (nth_error ["Sun"; "Mon"; "Tue"; "Wed"; "Thu"; "Fri"; "Sat"] (Z.to_nat n))
    as [label|] eqn:E; [|reflexivity].
  assert (Hlt : Z.to_nat n < 7).
  { change 7 with (List.length ["Sun"; "Mon"; "Tue"; "Wed"; "Thu"; "Fri"; "Sat"]).
    apply nth_error_Some. rewrite E. discriminate. }
  lia.
Qed.

Lemma getDayLabel_fallback_witness :
  (readNumber "7" = None \/ exists n, readNumber "7" = Some n /\ (n < 0 \/ 6 < n)%Z)
  /\ Listing.getDayLabel readNumber "7" = "7".
Proof.
  assert (H : readNumber "7" = None
              \/ exists n, readNumber "7" = Some n /\ (n < 0 \/ 6 < n)%Z).
  { right. exists 7%Z. split; [reflexivity | right; reflexivity]. }
  split; [exact H|].
  exact (getDayLabel_fallback readNumber "7" H).
Defined.

(** ** Identity of the alerts under editing *)

(** X22.  Editing never adds, drops, reorders or renames an alert: after
    a change of message, type, hour or minute, a click on a day or on the
    everyday box, the list holds the same ids in the same order. *)
Theorem edits_keep_ids (alerts : list Dashboard.Alert) (event : Editor.Event) :
  (forall id, event <> Editor.click_add id) ->
  (forall id, event <> Editor.click_remove id) ->
  map Dashboard.id (Editor.handle alerts event) = map Dashboard.id alerts.
Proof.
  intros Hadd Hremove.
  assert (Hmap : forall f : Dashboard.Alert -> Dashboard.Alert,
             (forall alert, Dashboard.id (f alert) = Dashboard.id alert) ->
             map Dashboard.id (map f alerts) = map Dashboard.id alerts).
  { intros f Hf. rewrite map_map. apply map_ext. exact Hf. }
  destruct event; cbn [Editor.handle];
    try (now contradiction (Hadd id)); try (now contradiction (Hremove id));
    apply Hmap; intros alert;
    destruct (String.eqb (Dashboard.id alert) id); reflexivity.
Qed.

Lemma edits_keep_ids_witness :
  map Dashboard.id
    (Editor.handle (Dashboard.alerts ex_form2) (Editor.check_everyday "p0q1" true))
  = map Dashboard.id (Dashboard.alerts ex_form2).
Proof.
  apply edits_keep_ids; intros id; discriminate.
Defined.
